(** * Nasdaq-100 RAG chatbot: the retrieval pipeline of NAsdaq100StreamlitRag.py

    A shallow embedding of the three RAG functions ([get_query_embedding],
    [find_similar_chunks], [get_llm_answer]) and of the chat handler that
    sequences them.  Python values coming back from the vector store are
    modelled as JSON-like values, Python exceptions as an error result, and
    every outbound call and every message shown on the page as an event of a
    trace, so that "this call is never made" is a statement about the trace. *)

From Stdlib Require Import PrimFloat ZArith DecimalString.
From stdpp Require Import gmap strings list sorting.

Set Warnings "-register-all,-inexact-float".

(** ** Python values *)

Module Py.

(** The values a JSONB column or an RPC result can hold.  A dict is a finite
  map with string keys: the program only looks keys up. *)
Inductive pyval : Type :=
| PNone
| PBool (b : bool)
| PInt (z : Z)
| PFloat (f : float)
| PStr (s : string)
| PList (l : list pyval)
| PDict (d : gmap string pyval).

(** The exceptions that can occur; all of them derive from [Exception], so
  every [except Exception] clause catches each of them. *)
Inductive exn : Type :=
| KeyError (key : string)
| TypeError
| AttributeError (attr : string)
| IndexError
| ServiceError (detail : string).

(** [bool(v)], the truth value tested by [if v] and by [v and ...]. *)
Definition truthy (v : pyval) : bool :=
match v with
| PNone => false
| PBool b => b
| PInt z => negb (z =? 0)%Z
| PFloat f => negb (PrimFloat.eqb f 0%float)
| PStr s => negb (String.eqb s EmptyString)
| PList l => negb (Nat.eqb (length l) 0)
| PDict d => negb (Nat.eqb (size d) 0)
end.

(** [v[key]] for a string key: only a dict can be indexed by a string. *)
Definition getitem (v : pyval) (key : string) : exn + pyval :=
match v with
| PDict d =>
    match d !! key with
    | Some x => inr x
    | None => inl (KeyError key)
    end
| _ => inl TypeError
end.

(** [v.get(key, default)]: only a dict has the method. *)
Definition get (v : pyval) (key : string) (dflt : pyval) : exn + pyval :=
match v with
| PDict d => inr (default dflt (d !! key))
| _ => inl (AttributeError "get")
end.

(** [l[0]] on a list. *)
Definition item0 {A : Type} (l : list A) : exn + A :=
match l with
| x :: _ => inr x
| [] => inl IndexError
end.

Section Str.
(** [repr] of floats, lists and dicts is taken as given. *)
Variable py_repr : pyval -> string.

(** [str(v)], the text an f-string substitutes for [{v}]. *)
Definition str (v : pyval) : string :=
  match v with
  | PStr s => s
  | PNone => "None"
  | PBool true => "True"
  | PBool false => "False"
  | PInt z => NilZero.string_of_int (Z.to_int z)
  | _ => py_repr v
  end.
End Str.

(** [sep.join(l)] *)
Definition join (sep : string) (l : list string) : string := String.concat sep l.

(** [sorted(list(set(l)))]: the distinct elements in ascending order.
  Python compares strings by code point, which on UTF-8 text is the
  byte-wise lexicographic order [String.le]. *)
Definition sorted_set (l : list string) : list string :=
merge_sort String.le (elements (list_to_set l : gset string)).

End Py.
Import Py.

(** ** Effects: trace of events and exceptions *)

Definition nl : string := String (Ascii.ascii_of_nat 10) EmptyString.
Definition dquote : string := String (Ascii.ascii_of_nat 34) EmptyString.

Definition embedding : Type := list float.

(** One entry of the [messages] list of a chat completion request. *)
Record message : Type := Message { role : string; content : string }.

(** The argument dict of the [match_nasdaq_chunks] RPC. *)
Record rpc_params : Type := RpcParams {
  query_embedding : embedding;
  match_threshold : float;
  match_count : Z
}.

(** What the program does to the outside: the three service calls, and the
    two ways it reports an error ([st.error] on the page, [print] on stdout;
    both are an f-string of a fixed text followed by the exception). *)
Inductive event : Type :=
  | EmbeddingsCreate (input : list string) (model : string)
  | SupabaseRpc (fn : string) (params : rpc_params)
  | ChatCompletionsCreate (model : string) (messages : list message)
      (temperature : float)
  | StError (text : string) (e : exn)
  | Printed (text : string) (e : exn).

(** The answers of the three services, each either an exception or the part
    of the response the program reads:
    [response.data[i].embedding], [response.data] (the rows of the RPC, a
    list as the annotation of [context_chunks] says) and
    [response.choices[i].message.content], taken to be text (a null content
    is not modelled).  A run calls each service at most once, so an answer
    depends on the request only. *)
Record Services : Type := {
  embeddings_create : list string -> string -> exn + list embedding;
  rpc_execute : string -> rpc_params -> exn + list pyval;
  chat_completions_create : string -> list message -> float -> exn + list string
}.

(** A computation emits events and ends with a value or a raised exception. *)
Definition M (A : Type) : Type := list event * (exn + A).

Definition ret {A} (a : A) : M A := ([], inr a).
Definition emit (ev : event) : M unit := ([ev], inr tt).
Definition lift {A} (r : exn + A) : M A := ([], r).

Definition bind {A B} (m : M A) (k : A -> M B) : M B :=
  match snd m with
  | inl e => (fst m, inl e)
  | inr a => (fst m ++ fst (k a), snd (k a))
  end.

(** [try: m  except Exception as e: h e] *)
Definition try_except {A} (m : M A) (h : exn -> M A) : M A :=
  match snd m with
  | inl e => (fst m ++ fst (h e), snd (h e))
  | inr a => m
  end.

Notation "x <- m ;; k" := (bind m (fun x => k))
  (at level 100, m at next level, right associativity).
Notation "m ;;; k" := (bind m (fun _ => k))
  (at level 100, right associativity).

Definition trace {A} (m : M A) : list event := fst m.
Definition outcome {A} (m : M A) : exn + A := snd m.

(** A [for] loop that updates its variables [a] on each element of [l]. *)
Fixpoint foldM {A B} (f : A -> B -> M A) (l : list B) (a : A) : M A :=
  match l with
  | [] => ret a
  | b :: l' => a' <- f a b ;; foldM f l' a'
  end.

(** ** The program *)

Definition EMBEDDING_MODEL : string := "text-embedding-3-small".
Definition LLM_MODEL : string := "gpt-4o-mini".

Section RAG.
Variable py_repr : pyval -> string.
Variable svc : Services.

(** The three outbound calls: each leaves its event and then returns or
    raises what the service answers. *)
Definition client_embeddings_create (input : list string) (model : string)
  : M (list embedding) :=
  emit (EmbeddingsCreate input model) ;;;
  lift (embeddings_create svc input model).

Definition supabase_rpc_execute (fn : string) (params : rpc_params)
  : M (list pyval) :=
  emit (SupabaseRpc fn params) ;;;
  lift (rpc_execute svc fn params).

Definition client_chat_completions_create (model : string)
  (messages : list message) (temperature : float) : M (list string) :=
  emit (ChatCompletionsCreate model messages temperature) ;;;
  lift (chat_completions_create svc model messages temperature).

(** [get_query_embedding]: [None] stands for Python's [None]. *)
Definition get_query_embedding (query_text : string) : M (option embedding) :=
  try_except
    (data <- client_embeddings_create [query_text] EMBEDDING_MODEL ;;
     e0 <- lift (item0 data) ;;
     ret (Some e0))
    (fun e =>
       emit (StError "Fehler beim Erstellen des Query-Embeddings: " e) ;;;
       ret None).

(** [find_similar_chunks] *)
Definition find_similar_chunks (emb : embedding) : M (list pyval) :=
  try_except
    (supabase_rpc_execute "match_nasdaq_chunks"
       {| query_embedding := emb;
          match_threshold := 0.4%float;
          match_count := 5 |})
    (fun e =>
       emit (StError "Fehler bei der Vektorsuche in Supabase: " e) ;;;
       ret []).

(** The text appended to [context_text] for one chunk content:
    [f"\n---\n{content}\n---\n"]. *)
Definition delimited (c : pyval) : string :=
  nl +:+ "---" +:+ nl +:+ str py_repr c +:+ nl +:+ "---" +:+ nl.

(** The guarded block of the loop body: the source labels of one chunk. *)
Definition chunk_sources (chunk : pyval) (sources : list string)
  : M (list string) :=
  try_except
    (metadata <- lift (get chunk "metadata" (PDict ∅)) ;;
     if truthy metadata then
       ticker <- lift (get metadata "Ticker" PNone) ;;
       if truthy ticker then
         t <- lift (get metadata "Ticker" (PStr "N/A")) ;;
         c <- lift (get metadata "Company" (PStr "N/A")) ;;
         ret (sources ++ [str py_repr t +:+ " (" +:+ str py_repr c +:+ ")"])
       else ret sources
     else ret sources)
    (fun e =>
       emit (Printed "Fehler beim Parsen der Metadaten: " e) ;;;
       ret sources).

(** One iteration of [for chunk in context_chunks]; the loop variables are
    [context_text] and [sources]. *)
Definition loop_body (vars : string * list string) (chunk : pyval)
  : M (string * list string) :=
  c <- lift (getitem chunk "content") ;;
  let context_text := fst vars +:+ delimited c in
  sources <- chunk_sources chunk (snd vars) ;;
  ret (context_text, sources).

(** Step 1 of [get_llm_answer]: format the context. *)
Definition format_context (context_chunks : list pyval)
  : M (string * list string) :=
  let context_text := EmptyString in
  let sources := [] in
  if truthy (PList context_chunks) then
    foldM loop_body context_chunks (context_text, sources)
  else ret (context_text, sources).

(** Step 2: the system prompt, a triple-quoted f-string: the instruction
    lines, then the context or its placeholder. *)
Definition grounding_instruction : string :=
  nl +:+
  "    Du bist ein Assistent für Finanzanalysen, spezialisiert auf den Nasdaq-100." +:+ nl +:+
  "    Antworte auf die Frage des Benutzers basierend *ausschließlich* auf dem folgenden Kontext." +:+ nl +:+
  "    Wenn der Kontext die Antwort nicht enthält, sage: " +:+ dquote +:+
  "Ich habe dazu keine Informationen in meiner Datenbank." +:+ dquote +:+ nl +:+
  "    Sei präzise und zitiere Fakten, wenn möglich." +:+ nl +:+
  nl +:+
  "    Kontext:" +:+ nl +:+
  "    ".

Definition system_prompt (context_text : string) : string :=
  grounding_instruction +:+
  (if truthy (PStr context_text) then context_text
   else "Kein Kontext gefunden.") +:+ nl +:+
  "    ".

(** The suffix added to the answer when there are sources. *)
Definition sources_section (sources : list string) : string :=
  let unique_sources := sorted_set sources in
  nl +:+ nl +:+ "**Quellen:**" +:+ nl +:+ "- " +:+
  join (nl +:+ "- ") unique_sources.

(** Step 3: call the LLM, and add the distinct sources to the answer. *)
Definition invoke_llm (query system_prompt : string) (sources : list string)
  : M string :=
  try_except
    (choices <- client_chat_completions_create LLM_MODEL
                  [ {| role := "system"; content := system_prompt |};
                    {| role := "user"; content := query |} ]
                  0.0%float ;;
     answer <- lift (item0 choices) ;;
     if negb (Nat.eqb (length sources) 0)
     then ret (answer +:+ sources_section sources)
     else ret answer)
    (fun e =>
       emit (StError "Fehler beim Aufruf des LLM: " e) ;;;
       ret "Es gab einen Fehler bei der Generierung der Antwort.").

(** [get_llm_answer] *)
Definition get_llm_answer (query : string) (context_chunks : list pyval)
  : M string :=
  vars <- format_context context_chunks ;;
  let context_text := fst vars in
  let sources := snd vars in
  invoke_llm query (system_prompt context_text) sources.

(** The RAG step of the chat handler: embed, search, generate. *)
Definition rag_process (query : string) : M string :=
  query_embedding <- get_query_embedding query ;;
  match query_embedding with
  | Some ((_ :: _) as emb) =>
      relevant_chunks <- find_similar_chunks emb ;;
      get_llm_answer query relevant_chunks
  | _ => ret "Fehler: Konnte die Anfrage nicht verarbeiten."
  end.

End RAG.

(** ** What the specification says, in its own words *)

(** The field [key] of a chunk's metadata, when the chunk is a record whose
    metadata is a mapping holding that field. *)
Definition metadata_field (chunk : pyval) (key : string) : option pyval :=
  match chunk with
  | PDict d =>
      match d !! "metadata" with
      | Some (PDict md) => md !! key
      | _ => None
      end
  | _ => None
  end.

(** The company shown in a label, ["N/A"] when the field is missing. *)
Definition company_text (py_repr : pyval -> string) (chunk : pyval) : string :=
  match metadata_field chunk "Company" with
  | Some c => str py_repr c
  | None => "N/A"
  end.

(** One label ["{ticker} ({company-or-placeholder})"] for a chunk with a
    non-empty ticker, none otherwise. *)
Definition spec_labels (py_repr : pyval -> string) (chunk : pyval)
  : list string :=
  match metadata_field chunk "Ticker" with
  | Some t =>
      if truthy t
      then [str py_repr t +:+ " (" +:+ company_text py_repr chunk +:+ ")"]
      else []
  | None => []
  end.

(** A record the loop cannot read: not a mapping, or a mapping without a
    [content] entry. *)
Definition lacks_content (chunk : pyval) : Prop :=
  match chunk with
  | PDict d => d !! "content" = None
  | _ => True
  end.

(** The concatenation of a list of strings, in order. *)
Definition concat_all (l : list string) : string := foldr String.app EmptyString l.

(** [needle] occurs somewhere in [s]. *)
Definition contains (s needle : string) : Prop :=
  exists pre post, s = pre +:+ needle +:+ post.

Definition is_print (ev : event) : Prop :=
  match ev with Printed _ _ => True | _ => False end.

Definition is_service_call (ev : event) : Prop :=
  match ev with
  | EmbeddingsCreate _ _ | SupabaseRpc _ _ | ChatCompletionsCreate _ _ _ => True
  | _ => False
  end.

Definition is_rpc (ev : event) : Prop :=
  match ev with SupabaseRpc _ _ => True | _ => False end.

Definition is_chat (ev : event) : Prop :=
  match ev with ChatCompletionsCreate _ _ _ => True | _ => False end.

(** The request [find_similar_chunks] sends for an embedding. *)
Definition match_request (emb : embedding) : event :=
  SupabaseRpc "match_nasdaq_chunks"
    {| query_embedding := emb; match_threshold := 0.4%float; match_count := 5 |}.

(** The request [get_llm_answer] sends for a query and a context text. *)
Definition chat_request (query ctx : string) : event :=
  ChatCompletionsCreate LLM_MODEL
    [ {| role := "system"; content := system_prompt ctx |};
      {| role := "user"; content := query |} ]
    0.0%float.

(** ** Sample data *)

Module Sample.

(** A stand-in for [repr]; the fields of the records below are strings,
    for which it is not consulted. *)
Definition repr (v : pyval) : string := "<repr>".

(** Services that give the same answer to every request. *)
Definition services (emb : exn + list embedding) (rows : exn + list pyval)
    (choices : exn + list string) : Services :=
  {| embeddings_create := fun _ _ => emb;
     rpc_execute := fun _ _ => rows;
     chat_completions_create := fun _ _ _ => choices |}.

Definition vector : embedding := [0.25%float; 0.5%float].

Definition apple : pyval :=
  PDict {[ "content" := PStr "Apple focuses on hardware-software integration.";
           "metadata" := PDict {[ "Ticker" := PStr "AAPL";
                                  "Company" := PStr "Apple Inc." ]} ]}.

Definition microsoft : pyval :=
  PDict {[ "content" := PStr "Microsoft sells cloud services.";
           "metadata" := PDict {[ "Ticker" := PStr "MSFT";
                                  "Company" := PStr "Microsoft Corp." ]} ]}.

(** Metadata without a ticker. *)
Definition untagged : pyval :=
  PDict {[ "content" := PStr "The index is rebalanced every year.";
           "metadata" := PDict {[ "Sector" := PStr "Index" ]} ]}.

(** Metadata that is a string instead of a mapping. *)
Definition garbled : pyval :=
  PDict {[ "content" := PStr "Nvidia designs GPUs.";
           "metadata" := PStr "NVDA" ]}.

(** A record without content. *)
Definition headless : pyval :=
  PDict {[ "metadata" := PDict {[ "Ticker" := PStr "TSLA" ]} ]}.

Definition up : Services :=
  services (inr [vector]) (inr [apple]) (inr ["Apple integrates hardware and software."]).
Definition embedding_down : Services :=
  services (inl (ServiceError "401")) (inr [apple]) (inr ["unused"]).
Definition store_down : Services :=
  services (inr [vector]) (inl (ServiceError "timeout")) (inr ["Ich habe dazu keine Informationen in meiner Datenbank."]).
Definition store_empty : Services :=
  services (inr [vector]) (inr []) (inr ["Ich habe dazu keine Informationen in meiner Datenbank."]).
Definition llm_down : Services :=
  services (inr [vector]) (inr [apple]) (inl (ServiceError "429")).

End Sample.

(** ** Configuration, start-up and the chat page *)

(** What the script finds around it: the Streamlit secrets (absent when
    [st] has no such attribute, an exception when reading them raises),
    the process environment after [load_dotenv], and the two client
    constructors, which return a handle or raise. *)
Record Platform : Type := {
  st_secrets : option (exn + gmap string pyval);
  os_environ : gmap string string;
  OpenAI : pyval -> exn + unit;
  create_client : pyval -> pyval -> exn + unit
}.

(** [os.getenv(key)] *)
Definition os_getenv (p : Platform) (key : string) : pyval :=
  match os_environ p !! key with
  | Some s => PStr s
  | None => PNone
  end.

(** [get_secret] *)
Definition get_secret (p : Platform) (key : string) : exn + pyval :=
  match st_secrets p with
  | Some (inl e) => inl e
  | Some (inr secrets) =>
      match secrets !! key with
      | Some v => inr v
      | None => inr (os_getenv p key)
      end
  | None => inr (os_getenv p key)
  end.

(** What the page shows and does, besides the events of the pipeline. *)
Inductive ui_event : Type :=
  | Pipeline (ev : event)
  | StErrorText (text : string)
  | StStop
  | StTitle (text : string)
  | StCaption (text : string)
  | StChatInput (placeholder : string)
  | StChatMarkdown (role text : string)
  | StSpinner (text : string).

(** The body of [get_openai_client]; [None] stands for Python's [None].  Its
    decorator [st.cache_resource] is [cache_resource] below. *)
Definition get_openai_client (p : Platform) (OPENAI_API_KEY : pyval)
  : list ui_event * (exn + option unit) :=
  if negb (truthy OPENAI_API_KEY) then
    ([StErrorText "OPENAI_API_KEY nicht gefunden! Bitte in den Streamlit Secrets eintragen."],
     inr None)
  else
    ([], match OpenAI p OPENAI_API_KEY with
         | inl e => inl e
         | inr client => inr (Some client)
         end).

(** The body of [get_supabase_client], decorated like the one above. *)
Definition get_supabase_client (p : Platform) (SUPABASE_URL SUPABASE_KEY : pyval)
  : list ui_event * (exn + option unit) :=
  if negb (truthy SUPABASE_URL) || negb (truthy SUPABASE_KEY) then
    ([StErrorText "SUPABASE_URL oder SUPABASE_KEY nicht gefunden! Bitte in den Streamlit Secrets eintragen."],
     inr None)
  else
    ([], match create_client p SUPABASE_URL SUPABASE_KEY with
         | inl e => inl e
         | inr client => inr (Some client)
         end).

(** How the part of the script before the page ends: the clients are
    there, [st.stop()] was called, or an exception left the script. *)
Inductive boot : Type :=
  | Ready
  | Halted
  | Failed (e : exn).

(** Sections 1 and 2 of the script in a run that executes both bodies
    (nothing is cached yet): load the three secrets, build the two clients,
    stop when one of them is missing. *)
Definition startup (p : Platform) : list ui_event * boot :=
  match get_secret p "OPENAI_API_KEY" with
  | inl e => ([], Failed e)
  | inr OPENAI_API_KEY =>
  match get_secret p "SUPABASE_URL" with
  | inl e => ([], Failed e)
  | inr SUPABASE_URL =>
  match get_secret p "SUPABASE_KEY" with
  | inl e => ([], Failed e)
  | inr SUPABASE_KEY =>
  let r1 := get_openai_client p OPENAI_API_KEY in
  match snd r1 with
  | inl e => (fst r1, Failed e)
  | inr client =>
  let r2 := get_supabase_client p SUPABASE_URL SUPABASE_KEY in
  match snd r2 with
  | inl e => (fst r1 ++ fst r2, Failed e)
  | inr supabase =>
      if negb (bool_decide (is_Some client))
         || negb (bool_decide (is_Some supabase))
      then (fst r1 ++ fst r2 ++ [StStop], Halted)
      else (fst r1 ++ fst r2, Ready)
  end end end end end.

(** What [st.cache_resource] keeps of a call that returned: the messages it
    showed and its result. *)
Definition cache_entry : Type := (list ui_event * option unit)%type.

(** The decorator [st.cache_resource] on a function without arguments.  On a
    hit the body does not run: the stored messages are shown again and the
    stored result is returned.  On a miss the body runs, and the call is
    stored unless it raised. *)
Definition cache_resource (entry : option cache_entry)
    (body : list ui_event * (exn + option unit))
  : (list ui_event * (exn + option unit)) * option cache_entry :=
  match entry with
  | Some (replay, stored) => ((replay, inr stored), entry)
  | None =>
      (body,
       match snd body with
       | inr result => Some (fst body, result)
       | inl _ => None
       end)
  end.

(** The two cached calls of the process. *)
Record Cache : Type := {
  openai_entry : option cache_entry;
  supabase_entry : option cache_entry
}.

Definition no_cache : Cache :=
  {| openai_entry := None; supabase_entry := None |}.

(** Sections 1 and 2 of the script in any run of the process: as [startup],
    with the two clients taken through the cache; the cache after the run
    comes with the result. *)
Definition startup_cached (p : Platform) (c : Cache)
  : (list ui_event * boot) * Cache :=
  match get_secret p "OPENAI_API_KEY" with
  | inl e => (([], Failed e), c)
  | inr OPENAI_API_KEY =>
  match get_secret p "SUPABASE_URL" with
  | inl e => (([], Failed e), c)
  | inr SUPABASE_URL =>
  match get_secret p "SUPABASE_KEY" with
  | inl e => (([], Failed e), c)
  | inr SUPABASE_KEY =>
  let r1 := cache_resource (openai_entry c)
              (get_openai_client p OPENAI_API_KEY) in
  match snd (fst r1) with
  | inl e =>
      ((fst (fst r1), Failed e),
       {| openai_entry := snd r1; supabase_entry := supabase_entry c |})
  | inr client =>
  let r2 := cache_resource (supabase_entry c)
              (get_supabase_client p SUPABASE_URL SUPABASE_KEY) in
  let c' := {| openai_entry := snd r1; supabase_entry := snd r2 |} in
  match snd (fst r2) with
  | inl e => ((fst (fst r1) ++ fst (fst r2), Failed e), c')
  | inr supabase =>
      if negb (bool_decide (is_Some client))
         || negb (bool_decide (is_Some supabase))
      then ((fst (fst r1) ++ fst (fst r2) ++ [StStop], Halted), c')
      else ((fst (fst r1) ++ fst (fst r2), Ready), c')
  end end end end end.

(** A client is there for the run: stored by an earlier call, or, with
    nothing stored, built now. *)
Definition client_available (entry : option cache_entry) (buildable : Prop)
  : Prop :=
  match entry with
  | Some (_, stored) => stored = Some tt
  | None => buildable
  end.


(** The outcome of section 5 of the script: what was shown, the stored
    conversation afterwards, and the exception that ended it, if any. *)
Record turn : Type := Turn {
  shown : list ui_event;
  messages_after : list message;
  raised : option exn
}.

Section Page.
Variable py_repr : pyval -> string.
Variable svc : Services.

(** Section 5 of the script; [chat_input] is what [st.chat_input] returns. *)
Definition chat_logic (messages : list message) (chat_input : option string)
  : turn :=
  match chat_input with
  | Some query =>
      if truthy (PStr query) then
        let messages := messages ++ [ {| role := "user"; content := query |} ] in
        let before :=
          [StChatMarkdown "user" query;
           StSpinner "Analysiere Daten... (Embedding -> Vektorsuche -> LLM)"] in
        let r := rag_process py_repr svc query in
        match outcome r with
        | inr answer =>
            {| shown := before ++ map Pipeline (trace r)
                          ++ [StChatMarkdown "assistant" answer];
               messages_after :=
                 messages ++ [ {| role := "assistant"; content := answer |} ];
               raised := None |}
        | inl e =>
            {| shown := before ++ map Pipeline (trace r);
               messages_after := messages;
               raised := Some e |}
        end
      else {| shown := []; messages_after := messages; raised := None |}
  | None => {| shown := []; messages_after := messages; raised := None |}
  end.

(** How a run of the whole script ends. *)
Inductive ending : Type :=
  | Finished
  | Stopped
  | Crashed (e : exn).

Record run : Type := Run {
  page : list ui_event;
  session_messages : option (list message);
  ended : ending
}.


End Page.

(** ** Measures of a run *)

Definition is_service_callb (ev : event) : bool :=
  match ev with
  | EmbeddingsCreate _ _ | SupabaseRpc _ _ | ChatCompletionsCreate _ _ _ => true
  | _ => false
  end.

(** The requests sent to the three services, in the order they were sent. *)
Definition service_calls (t : list event) : list event :=
  List.filter is_service_callb t.


(** A stored conversation made of question and answer pairs. *)
Fixpoint dialogue (messages : list message) : Prop :=
  match messages with
  | [] => True
  | question :: answer :: rest =>
      role question = "user" /\ role answer = "assistant" /\ dialogue rest
  | _ => False
  end.

(** The stored conversation after a series of runs of section 5, one run
    per value of the chat input. *)
Definition after_inputs (py_repr : pyval -> string) (svc : Services)
    (messages : list message) (inputs : list (option string)) : list message :=
  fold_left (fun ms input => messages_after (chat_logic py_repr svc ms input))
    inputs messages.

(** ** More sample data *)

Module Demo.

Definition platform (secrets : option (exn + gmap string pyval))
    (environ : gmap string string) : Platform :=
  {| st_secrets := secrets;
     os_environ := environ;
     OpenAI := fun _ => inr tt;
     create_client := fun _ _ => inr tt |}.

Definition environ : gmap string string :=
  {[ "OPENAI_API_KEY" := "sk-env";
     "SUPABASE_URL" := "https://env.supabase.co";
     "SUPABASE_KEY" := "key-env" ]}.

(** All three secrets in the secret store. *)
Definition cloud : Platform :=
  platform (Some (inr {[ "OPENAI_API_KEY" := PStr "sk-cloud";
                          "SUPABASE_URL" := PStr "https://cloud.supabase.co";
                          "SUPABASE_KEY" := PStr "key-cloud" ]})) ∅.


(** An empty API key in the secret store, a usable one in the environment. *)
Definition shadowed : Platform :=
  platform (Some (inr {[ "OPENAI_API_KEY" := PStr EmptyString ]})) environ.

(** Nothing configured. *)
Definition bare : Platform := platform (Some (inr ∅)) ∅.

(** A store that answers with a record without content. *)
Definition store_broken : Services :=
  Sample.services (inr [Sample.vector]) (inr [Sample.apple; Sample.headless])
    (inr ["unused"]).

(** A chunk whose company is null. *)
Definition nameless : pyval :=
  PDict {[ "content" := PStr "Alphabet owns Google.";
           "metadata" := PDict {[ "Ticker" := PStr "GOOGL";
                                  "Company" := PNone ]} ]}.

(** A chunk whose ticker is the empty string. *)
Definition blank_ticker : pyval :=
  PDict {[ "content" := PStr "Amazon runs AWS.";
           "metadata" := PDict {[ "Ticker" := PStr EmptyString;
                                  "Company" := PStr "Amazon.com" ]} ]}.

End Demo.

(** ** Strings *)

Lemma string_app_cons (a : Ascii.ascii) (s t : string) :
  String a s +:+ t = String a (s +:+ t).
Proof. reflexivity. Qed.

Lemma string_app_nil_r (s : string) : s +:+ EmptyString = s.
Proof.
  induction s as [|a s IH]; [done|]. by rewrite string_app_cons, IH.
Qed.

Lemma string_app_assoc (s1 s2 s3 : string) :
  s1 +:+ (s2 +:+ s3) = (s1 +:+ s2) +:+ s3.
Proof.
  induction s1 as [|a s1 IH]; [done|]. by rewrite !string_app_cons, IH.
Qed.

Lemma string_app_length (s1 s2 : string) :
  String.length (s1 +:+ s2) = String.length s1 + String.length s2.
Proof.
  induction s1 as [|a s1 IH]; [done|].
  rewrite string_app_cons. cbn [String.length]. by rewrite IH.
Qed.

Lemma string_app_id_r (s t : string) : s +:+ t = s -> t = EmptyString.
Proof.
  intros H. apply (f_equal String.length) in H.
  rewrite string_app_length in H. destruct t; [done|]. cbn in H. lia.
Qed.

Lemma concat_all_app (l1 l2 : list string) :
  concat_all (l1 ++ l2) = concat_all l1 +:+ concat_all l2.
Proof.
  induction l1 as [|s l1 IH]; [done|].
  cbn [concat_all foldr app]. fold (concat_all (l1 ++ l2)). fold (concat_all l1).
  by rewrite IH, string_app_assoc.
Qed.

(** ** The effect monad *)

Lemma bind_inr {A B} (m : M A) (k : A -> M B) (a : A) :
  outcome m = inr a -> bind m k = (trace m ++ trace (k a), outcome (k a)).
Proof. unfold bind, outcome, trace. by intros ->. Qed.

Lemma bind_inl {A B} (m : M A) (k : A -> M B) (e : exn) :
  outcome m = inl e -> bind m k = (trace m, inl e).
Proof. unfold bind, outcome, trace. by intros ->. Qed.

Lemma try_except_inr {A} (m : M A) (h : exn -> M A) (a : A) :
  outcome m = inr a -> try_except m h = m.
Proof. unfold try_except, outcome. by intros ->. Qed.

Lemma try_except_inl {A} (m : M A) (h : exn -> M A) (e : exn) :
  outcome m = inl e ->
  try_except m h = (trace m ++ trace (h e), outcome (h e)).
Proof. unfold try_except, outcome, trace. by intros ->. Qed.

Lemma bind_lift_inr {A B} (a : A) (k : A -> M B) : bind (lift (inr a)) k = k a.
Proof. unfold bind, lift. cbn. by destruct (k a). Qed.

Lemma bind_lift_inl {A B} (e : exn) (k : A -> M B) :
  bind (lift (inl e)) k = ([], inl e).
Proof. reflexivity. Qed.

Lemma bind_ret {A B} (a : A) (k : A -> M B) : bind (ret a) k = k a.
Proof. apply bind_lift_inr. Qed.

Lemma bind_emit {B} (ev : event) (k : unit -> M B) :
  bind (emit ev) k = (ev :: trace (k tt), outcome (k tt)).
Proof. reflexivity. Qed.

(** ** Context assembly *)

Section Assembly.
Variable py_repr : pyval -> string.

Ltac run :=
  repeat first
    [ rewrite bind_lift_inr | rewrite bind_lift_inl | rewrite bind_ret
    | rewrite bind_emit ];
  cbn [try_except ret lift fst snd trace outcome app].

Ltac no_label :=
  run; rewrite ?app_nil_r; split; [done | by repeat constructor].

(** The guarded block never raises, prints at most, and adds exactly the
    labels the specification describes. *)
Lemma chunk_sources_spec (chunk : pyval) (sources : list string) :
  outcome (chunk_sources py_repr chunk sources)
    = inr (sources ++ spec_labels py_repr chunk)
  /\ Forall is_print (trace (chunk_sources py_repr chunk sources)).
Proof.
  unfold chunk_sources, spec_labels, company_text, metadata_field.
  destruct chunk as [| | | | | |d]; cbn [get]; try no_label.
  destruct (d !! "metadata") as [m|]; cbn [from_option id]; run.
  2:{ cbn [truthy]. rewrite map_size_empty. cbn [Nat.eqb negb]. no_label. }
  destruct m as [|b|z|f|s|l|md];
    try (destruct (truthy _); cbn [get]; no_label).
  destruct (md !! "Ticker") as [t|] eqn:Ht.
  - assert (truthy (PDict md) = true) as ->.
    { cbn [truthy]. destruct (Nat.eqb_spec (size md) 0) as [Hz|]; [|done].
      apply map_size_empty_iff in Hz. by rewrite Hz in Ht. }
    cbn [get]. rewrite Ht. cbn [from_option id]. run.
    destruct (truthy t); [|no_label].
    run. destruct (md !! "Company"); cbn [from_option id]; by split.
  - destruct (truthy (PDict md)); [|no_label].
    cbn [get]. rewrite Ht. cbn [from_option id truthy]. no_label.
Qed.

Lemma loop_body_ok (vars : string * list string) (chunk c : pyval) :
  getitem chunk "content" = inr c ->
  outcome (loop_body py_repr vars chunk)
    = inr (fst vars +:+ delimited py_repr c,
           snd vars ++ spec_labels py_repr chunk)
  /\ Forall is_print (trace (loop_body py_repr vars chunk)).
Proof.
  intros Hc. unfold loop_body. rewrite Hc, bind_lift_inr.
  destruct (chunk_sources_spec chunk (snd vars)) as [Ho Ht].
  erewrite bind_inr by exact Ho.
  cbn [ret fst snd trace outcome]. by rewrite app_nil_r.
Qed.

Lemma loop_body_raises (vars : string * list string) (chunk : pyval) (e : exn) :
  getitem chunk "content" = inl e ->
  loop_body py_repr vars chunk = ([], inl e).
Proof. intros Hc. unfold loop_body. by rewrite Hc. Qed.

(** The loop over well-formed records: contents in order, labels in order. *)
Lemma foldM_loop_body_ok (chunks contents : list pyval)
    (vars : string * list string) :
  Forall2 (fun chunk c => getitem chunk "content" = inr c) chunks contents ->
  outcome (foldM (loop_body py_repr) chunks vars)
    = inr (fst vars +:+ concat_all (map (delimited py_repr) contents),
           snd vars ++ flat_map (spec_labels py_repr) chunks)
  /\ Forall is_print (trace (foldM (loop_body py_repr) chunks vars)).
Proof.
  intros H. revert vars.
  induction H as [|chunk c chunks contents Hc _ IH]; intros vars.
  - cbn. rewrite string_app_nil_r, app_nil_r. destruct vars. by split.
  - destruct (loop_body_ok vars chunk c Hc) as [Ho Ht].
    cbn [foldM]. erewrite bind_inr by exact Ho.
    destruct (IH (fst vars +:+ delimited py_repr c,
                  snd vars ++ spec_labels py_repr chunk)) as [Ho' Ht'].
    cbn [fst snd trace outcome] in *. split.
    + rewrite Ho'. cbn [map flat_map concat_all foldr fst snd].
      fold (concat_all (map (delimited py_repr) contents)).
      by rewrite string_app_assoc, (assoc_L (++)).
    + by apply Forall_app.
Qed.

(** The loop stops at the first record without a readable content. *)
Lemma foldM_loop_body_raises (chunks : list pyval)
    (vars : string * list string) :
  Exists (fun chunk => forall c, getitem chunk "content" <> inr c) chunks ->
  exists e, outcome (foldM (loop_body py_repr) chunks vars) = inl e
    /\ (e = KeyError "content" \/ e = TypeError)
    /\ Forall is_print (trace (foldM (loop_body py_repr) chunks vars)).
Proof.
  revert vars. induction chunks as [|chunk chunks IH]; intros vars Hex.
  - by apply Exists_nil in Hex.
  - cbn [foldM].
    destruct (getitem chunk "content") as [e|c] eqn:Hc.
    + exists e. rewrite (loop_body_raises _ _ _ Hc). cbn. split; [done|].
      split; [|done].
      unfold getitem in Hc. destruct chunk; try (right; congruence).
      destruct (_ !! _); [done|]. left. congruence.
    + destruct (loop_body_ok vars chunk c Hc) as [Ho Ht].
      erewrite bind_inr by exact Ho.
      apply Exists_cons in Hex as [Hbad|Hex]; [by destruct (Hbad c)|].
      destruct (IH (fst vars +:+ delimited py_repr c,
                    snd vars ++ spec_labels py_repr chunk) Hex)
        as (e & He & Hk & Hp).
      exists e. cbn [fst snd trace outcome] in *.
      split; [done|]. split; [done|]. by apply Forall_app.
Qed.

(** Whatever the records are, the loop makes no service call. *)
Lemma foldM_loop_body_trace (chunks : list pyval)
    (vars : string * list string) :
  Forall is_print (trace (foldM (loop_body py_repr) chunks vars)).
Proof.
  revert vars. induction chunks as [|chunk chunks IH]; intros vars.
  - constructor.
  - cbn [foldM]. destruct (getitem chunk "content") as [e|c] eqn:Hc.
    + rewrite (loop_body_raises _ _ _ Hc). constructor.
    + destruct (loop_body_ok vars chunk c Hc) as [Ho Ht].
      erewrite bind_inr by exact Ho. apply Forall_app. split; [done|apply IH].
Qed.

Lemma format_context_ok (chunks contents : list pyval) :
  Forall2 (fun chunk c => getitem chunk "content" = inr c) chunks contents ->
  outcome (format_context py_repr chunks)
    = inr (concat_all (map (delimited py_repr) contents),
           flat_map (spec_labels py_repr) chunks)
  /\ Forall is_print (trace (format_context py_repr chunks)).
Proof.
  intros H. unfold format_context.
  destruct H as [|chunk c chunks contents Hc H]; [by cbn|].
  cbn [truthy length Nat.eqb negb].
  by apply (foldM_loop_body_ok (chunk :: chunks) (c :: contents)
              (EmptyString, [])), Forall2_cons.
Qed.

Lemma format_context_raises (chunks : list pyval) :
  Exists (fun chunk => forall c, getitem chunk "content" <> inr c) chunks ->
  exists e, outcome (format_context py_repr chunks) = inl e
    /\ (e = KeyError "content" \/ e = TypeError)
    /\ Forall is_print (trace (format_context py_repr chunks)).
Proof.
  intros H. unfold format_context.
  destruct chunks as [|chunk chunks]; [by apply Exists_nil in H|].
  cbn [truthy length Nat.eqb negb]. by apply foldM_loop_body_raises.
Qed.

Lemma format_context_trace (chunks : list pyval) :
  Forall is_print (trace (format_context py_repr chunks)).
Proof.
  unfold format_context. destruct (truthy _); [|constructor].
  apply foldM_loop_body_trace.
Qed.

End Assembly.

(** ** The three steps of the pipeline *)

Section Pipeline.
Variable py_repr : pyval -> string.
Variable svc : Services.

Lemma get_query_embedding_cases (query : string) :
  match embeddings_create svc [query] EMBEDDING_MODEL with
  | inr (e0 :: _) =>
      get_query_embedding svc query
        = ([EmbeddingsCreate [query] EMBEDDING_MODEL], inr (Some e0))
  | inr [] =>
      get_query_embedding svc query
        = ([EmbeddingsCreate [query] EMBEDDING_MODEL;
            StError "Fehler beim Erstellen des Query-Embeddings: " IndexError],
           inr None)
  | inl e =>
      get_query_embedding svc query
        = ([EmbeddingsCreate [query] EMBEDDING_MODEL;
            StError "Fehler beim Erstellen des Query-Embeddings: " e],
           inr None)
  end.
Proof.
  unfold get_query_embedding, client_embeddings_create.
  destruct (embeddings_create _ _ _) as [e|[|e0 data]]; reflexivity.
Qed.

Lemma find_similar_chunks_cases (emb : embedding) :
  match rpc_execute svc "match_nasdaq_chunks"
          {| query_embedding := emb; match_threshold := 0.4%float;
             match_count := 5 |} with
  | inr data => find_similar_chunks svc emb = ([match_request emb], inr data)
  | inl e =>
      find_similar_chunks svc emb
        = ([match_request emb;
            StError "Fehler bei der Vektorsuche in Supabase: " e], inr [])
  end.
Proof.
  unfold find_similar_chunks, supabase_rpc_execute, match_request.
  destruct (rpc_execute _ _ _) as [e|data]; reflexivity.
Qed.

Lemma invoke_llm_cases (query prompt : string) (sources : list string) :
  let request :=
    ChatCompletionsCreate LLM_MODEL
      [ {| role := "system"; content := prompt |};
        {| role := "user"; content := query |} ] 0.0%float in
  match chat_completions_create svc LLM_MODEL
          [ {| role := "system"; content := prompt |};
            {| role := "user"; content := query |} ] 0.0%float with
  | inr (answer :: _) =>
      invoke_llm svc query prompt sources
        = ([request],
           inr (if negb (Nat.eqb (length sources) 0)
                then answer +:+ sources_section sources else answer))
  | inr [] =>
      invoke_llm svc query prompt sources
        = ([request; StError "Fehler beim Aufruf des LLM: " IndexError],
           inr "Es gab einen Fehler bei der Generierung der Antwort.")
  | inl e =>
      invoke_llm svc query prompt sources
        = ([request; StError "Fehler beim Aufruf des LLM: " e],
           inr "Es gab einen Fehler bei der Generierung der Antwort.")
  end.
Proof.
  unfold invoke_llm, client_chat_completions_create.
  destruct (chat_completions_create _ _ _ _) as [e|[|answer choices]];
    try reflexivity.
  cbn. by destruct (negb _).
Qed.

(** The generation step never raises, and its one service call is the
    chat request. *)
Lemma invoke_llm_returns (query prompt : string) (sources : list string) :
  exists (answer : string) (tl : list event),
    invoke_llm svc query prompt sources
      = (ChatCompletionsCreate LLM_MODEL
           [ {| role := "system"; content := prompt |};
             {| role := "user"; content := query |} ] 0.0%float :: tl,
         inr answer)
    /\ Forall (fun ev => ~ is_service_call ev) tl.
Proof.
  pose proof (invoke_llm_cases query prompt sources) as H. cbn zeta in H.
  destruct (chat_completions_create _ _ _ _) as [e|[|answer choices]];
    rewrite H; eexists _, _; (split; [reflexivity|]);
    repeat constructor; by intros [].
Qed.

Lemma get_llm_answer_unfold (query : string) (chunks : list pyval)
    (ctx : string) (sources : list string) :
  outcome (format_context py_repr chunks) = inr (ctx, sources) ->
  get_llm_answer py_repr svc query chunks
    = (trace (format_context py_repr chunks)
         ++ trace (invoke_llm svc query (system_prompt ctx) sources),
       outcome (invoke_llm svc query (system_prompt ctx) sources)).
Proof. intros H. unfold get_llm_answer. by erewrite bind_inr by exact H. Qed.

Lemma get_llm_answer_raises (query : string) (chunks : list pyval) (e : exn) :
  outcome (format_context py_repr chunks) = inl e ->
  get_llm_answer py_repr svc query chunks
    = (trace (format_context py_repr chunks), inl e).
Proof. intros H. unfold get_llm_answer. by erewrite bind_inl by exact H. Qed.

Lemma rag_process_unfold (query : string) (emb : embedding) :
  outcome (get_query_embedding svc query) = inr (Some emb) -> emb <> [] ->
  rag_process py_repr svc query
    = (trace (get_query_embedding svc query)
         ++ trace (x <- find_similar_chunks svc emb ;;
                   get_llm_answer py_repr svc query x),
       outcome (x <- find_similar_chunks svc emb ;;
                get_llm_answer py_repr svc query x)).
Proof.
  intros H Hne. unfold rag_process. erewrite bind_inr by exact H.
  by destruct emb.
Qed.

End Pipeline.

(** ** Sorted, distinct sources *)

Lemma elem_of_sorted_set (l : list string) (x : string) :
  x ∈ sorted_set l <-> x ∈ l.
Proof.
  unfold sorted_set. rewrite merge_sort_Permutation, elem_of_elements.
  apply elem_of_list_to_set.
Qed.

Lemma NoDup_sorted_set (l : list string) : NoDup (sorted_set l).
Proof.
  unfold sorted_set. rewrite merge_sort_Permutation. apply NoDup_elements.
Qed.

Lemma StronglySorted_sorted_set (l : list string) :
  StronglySorted String.le (sorted_set l).
Proof. apply StronglySorted_merge_sort; apply _. Qed.

(** A sorted list without repetition that has the same elements is the
    result. *)
Lemma sorted_set_unique (l r : list string) :
  StronglySorted String.le r -> NoDup r -> (forall x, x ∈ r <-> x ∈ l) ->
  sorted_set l = r.
Proof.
  intros Hs Hn He. apply (StronglySorted_unique String.le).
  - apply StronglySorted_sorted_set.
  - done.
  - apply NoDup_Permutation; [apply NoDup_sorted_set | done |].
    intros x. by rewrite elem_of_sorted_set, He.
Qed.

Lemma sorted_set_nil : sorted_set [] = [].
Proof. apply sorted_set_unique; [constructor | constructor | done]. Qed.

(** ** Events of a run *)

Section Traces.
Variable py_repr : pyval -> string.
Variable svc : Services.

Lemma is_print_not_service (ev : event) : is_print ev -> ~ is_service_call ev.
Proof. destruct ev; cbn; tauto. Qed.

(** A chat request in the trace of [get_llm_answer] is the one request of
    the generation step, made after the context was assembled. *)
Lemma chat_event_of_get_llm_answer (query : string) (chunks : list pyval)
    (model : string) (msgs : list message) (temp : float) :
  ChatCompletionsCreate model msgs temp
    ∈ trace (get_llm_answer py_repr svc query chunks) ->
  exists ctx sources,
    outcome (format_context py_repr chunks) = inr (ctx, sources)
    /\ ChatCompletionsCreate model msgs temp = chat_request query ctx.
Proof.
  intros Hin.
  pose proof (format_context_trace py_repr chunks) as Hp.
  destruct (outcome (format_context py_repr chunks)) as [e|[ctx sources]] eqn:Ho.
  - rewrite (get_llm_answer_raises _ _ _ _ _ Ho) in Hin.
    cbn [trace fst] in Hin. rewrite Forall_forall in Hp.
    by destruct (Hp _ Hin).
  - exists ctx, sources. split; [done|].
    rewrite (get_llm_answer_unfold _ _ _ _ _ _ Ho) in Hin.
    cbn [fst] in Hin. apply elem_of_app in Hin as [Hin|Hin].
    + rewrite Forall_forall in Hp. by destruct (Hp _ Hin).
    + destruct (invoke_llm_returns svc query (system_prompt ctx) sources)
        as (answer & tl & Heq & Htl).
      unfold trace in Hin. rewrite Heq in Hin.
      cbn [fst] in Hin. apply elem_of_cons in Hin as [->|Hin]; [done|].
      rewrite Forall_forall in Htl. by destruct (Htl _ Hin).
Qed.

(** [get_llm_answer] never calls the embedding service or the store. *)
Lemma get_llm_answer_trace (query : string) (chunks : list pyval) :
  Forall (fun ev => is_service_call ev -> is_chat ev)
    (trace (get_llm_answer py_repr svc query chunks)).
Proof.
  pose proof (format_context_trace py_repr chunks) as Hp.
  assert (Forall (fun ev => is_service_call ev -> is_chat ev)
            (trace (format_context py_repr chunks))) as Hp'.
  { eapply Forall_impl; [exact Hp|]. intros ev H H'.
    by destruct (is_print_not_service ev). }
  destruct (outcome (format_context py_repr chunks)) as [e|[ctx sources]] eqn:Ho.
  - by rewrite (get_llm_answer_raises _ _ _ _ _ Ho).
  - rewrite (get_llm_answer_unfold _ _ _ _ _ _ Ho). cbn [trace fst].
    apply Forall_app. split; [done|].
    destruct (invoke_llm_returns svc query (system_prompt ctx) sources)
      as (answer & tl & Heq & Htl).
    unfold trace. rewrite Heq. cbn [fst]. constructor; [done|].
    eapply Forall_impl; [exact Htl|]. by intros ev H H'.
Qed.

End Traces.

(** ** Sample runs *)

(** The end-to-end scenario: one chunk about Apple, cited under the answer. *)
Example run_up :
  rag_process Sample.repr Sample.up "What is Apple's business strategy?"
    = ([EmbeddingsCreate ["What is Apple's business strategy?"] EMBEDDING_MODEL;
        match_request Sample.vector;
        chat_request "What is Apple's business strategy?"
          (delimited Sample.repr
             (PStr "Apple focuses on hardware-software integration."))],
       inr "Apple integrates hardware and software.

**Quellen:**
- AAPL (Apple Inc.)").
Proof. vm_compute. reflexivity. Qed.

Example run_embedding_down :
  rag_process Sample.repr Sample.embedding_down "Apple?"
    = ([EmbeddingsCreate ["Apple?"] EMBEDDING_MODEL;
        StError "Fehler beim Erstellen des Query-Embeddings: "
          (ServiceError "401")],
       inr "Fehler: Konnte die Anfrage nicht verarbeiten.").
Proof. reflexivity. Qed.

Example run_garbled_metadata :
  format_context Sample.repr [Sample.garbled]
    = ([Printed "Fehler beim Parsen der Metadaten: " (AttributeError "get")],
       inr (delimited Sample.repr (PStr "Nvidia designs GPUs."), [])).
Proof. reflexivity. Qed.

Example run_headless :
  get_llm_answer Sample.repr Sample.up "Tesla?" [Sample.headless]
    = ([], inl (KeyError "content")).
Proof. reflexivity. Qed.

(** An empty embedding is falsy too, and ends the run like [None]. *)
Example run_empty_embedding :
  outcome (rag_process Sample.repr
             (Sample.services (inr [[]]) (inr [Sample.apple]) (inr ["unused"]))
             "Apple?")
    = inr "Fehler: Konnte die Anfrage nicht verarbeiten.".
Proof. reflexivity. Qed.

(** ** The pipeline properties *)

(** C1. When [get_query_embedding] returns [None], the answer of the run is
    the fixed failure string, and the run consists of the embedding attempt
    only: no request to the vector store and none to the language model. *)
Theorem embedding_failure_short_circuits (py_repr : pyval -> string)
    (svc : Services) (query : string) :
  outcome (get_query_embedding svc query) = inr None ->
  rag_process py_repr svc query
    = (trace (get_query_embedding svc query),
       inr "Fehler: Konnte die Anfrage nicht verarbeiten.")
  /\ Forall (fun ev => ~ is_rpc ev /\ ~ is_chat ev)
       (trace (rag_process py_repr svc query)).
Proof.
  intros H.
  assert (rag_process py_repr svc query
            = (trace (get_query_embedding svc query),
               inr "Fehler: Konnte die Anfrage nicht verarbeiten.")) as Heq.
  { unfold rag_process. erewrite bind_inr by exact H.
    cbn [ret trace outcome fst snd]. by rewrite app_nil_r. }
  split; [done|]. rewrite Heq. cbn [trace fst].
  pose proof (get_query_embedding_cases svc query) as Hc.
  destruct (embeddings_create _ _ _) as [e|[|e0 data]]; rewrite Hc;
    repeat constructor; by intros [].
Qed.

Lemma embedding_failure_short_circuits_witness :
  rag_process Sample.repr Sample.embedding_down "Wie lautet die Strategie von Apple?"
    = (trace (get_query_embedding Sample.embedding_down
                "Wie lautet die Strategie von Apple?"),
       inr "Fehler: Konnte die Anfrage nicht verarbeiten.")
  /\ Forall (fun ev => ~ is_rpc ev /\ ~ is_chat ev)
       (trace (rag_process Sample.repr Sample.embedding_down
                 "Wie lautet die Strategie von Apple?")).
Proof. apply embedding_failure_short_circuits. reflexivity. Defined.

(** C2. The chunks given to [get_llm_answer] are the list returned by
    [find_similar_chunks], which on success is the store's [response.data]
    itself; the only store request of a run carries the query embedding,
    threshold 0.4 and count 5. *)
Theorem retrieved_chunks_reach_generator_unchanged (py_repr : pyval -> string)
    (svc : Services) (query : string) (emb : embedding) :
  outcome (get_query_embedding svc query) = inr (Some emb) -> emb <> [] ->
  exists chunks,
    outcome (find_similar_chunks svc emb) = inr chunks
    /\ rag_process py_repr svc query
         = (trace (get_query_embedding svc query)
              ++ trace (find_similar_chunks svc emb)
              ++ trace (get_llm_answer py_repr svc query chunks),
            outcome (get_llm_answer py_repr svc query chunks))
    /\ (forall data,
          rpc_execute svc "match_nasdaq_chunks"
            {| query_embedding := emb; match_threshold := 0.4%float;
               match_count := 5 |} = inr data ->
          chunks = data)
    /\ (forall fn params,
          SupabaseRpc fn params ∈ trace (rag_process py_repr svc query) ->
          fn = "match_nasdaq_chunks"
          /\ params = {| query_embedding := emb; match_threshold := 0.4%float;
                         match_count := 5 |}).
Proof.
  intros He Hne.
  assert (exists chunks tl,
            find_similar_chunks svc emb = (match_request emb :: tl, inr chunks)
            /\ Forall (fun ev => ~ is_service_call ev) tl
            /\ forall data,
                 rpc_execute svc "match_nasdaq_chunks"
                   {| query_embedding := emb; match_threshold := 0.4%float;
                      match_count := 5 |} = inr data -> chunks = data)
    as (chunks & tl & Hf & Htl & Hdata).
  { pose proof (find_similar_chunks_cases svc emb) as Hc.
    destruct (rpc_execute _ _ _) as [e|data].
    - exists [], [StError "Fehler bei der Vektorsuche in Supabase: " e].
      split; [done|]. split; [|done]. repeat constructor. by intros [].
    - exists data, []. split; [done|]. split; [constructor|]. congruence. }
  assert (rag_process py_repr svc query
         = (trace (get_query_embedding svc query)
              ++ trace (find_similar_chunks svc emb)
              ++ trace (get_llm_answer py_repr svc query chunks),
            outcome (get_llm_answer py_repr svc query chunks))) as Hrag.
  { rewrite (rag_process_unfold _ _ _ _ He Hne).
    erewrite (bind_inr (find_similar_chunks svc emb)); [done|].
    by rewrite Hf. }
  exists chunks. split; [by rewrite Hf|]. split; [done|]. split; [done|].
  intros fn params Hin. rewrite Hrag in Hin. cbn [trace fst] in Hin.
  apply elem_of_app in Hin as [Hin|Hin].
  { pose proof (get_query_embedding_cases svc query) as Hc.
    destruct (embeddings_create _ _ _) as [e|[|e0 data]]; rewrite Hc in Hin;
      cbn [trace fst] in Hin;
      repeat (apply elem_of_cons in Hin as [Hin|Hin]; [done|]);
      by apply elem_of_nil in Hin. }
  apply elem_of_app in Hin as [Hin|Hin].
  - rewrite Hf in Hin. cbn [fst] in Hin.
    apply elem_of_cons in Hin as [Heq|Hin].
    + unfold match_request in Heq. by injection Heq as -> ->.
    + rewrite Forall_forall in Htl. by destruct (Htl _ Hin).
  - pose proof (get_llm_answer_trace py_repr svc query chunks) as Ht.
    rewrite Forall_forall in Ht. by destruct (Ht _ Hin).
Qed.

Lemma retrieved_chunks_reach_generator_unchanged_witness :
  exists chunks,
    outcome (find_similar_chunks Sample.up Sample.vector) = inr chunks
    /\ rag_process Sample.repr Sample.up "Apple?"
         = (trace (get_query_embedding Sample.up "Apple?")
              ++ trace (find_similar_chunks Sample.up Sample.vector)
              ++ trace (get_llm_answer Sample.repr Sample.up "Apple?" chunks),
            outcome (get_llm_answer Sample.repr Sample.up "Apple?" chunks))
    /\ (forall data,
          rpc_execute Sample.up "match_nasdaq_chunks"
            {| query_embedding := Sample.vector; match_threshold := 0.4%float;
               match_count := 5 |} = inr data ->
          chunks = data)
    /\ (forall fn params,
          SupabaseRpc fn params ∈ trace (rag_process Sample.repr Sample.up "Apple?") ->
          fn = "match_nasdaq_chunks"
          /\ params = {| query_embedding := Sample.vector;
                         match_threshold := 0.4%float; match_count := 5 |}).
Proof.
  apply retrieved_chunks_reach_generator_unchanged; [reflexivity | discriminate].
Defined.

(** C3. For records that each hold a content, the context text is the
    concatenation, in order, of the contents, each between two delimiter
    lines; for no records it is the empty string, and the prompt then sent
    holds the placeholder in the place of the context. *)
Theorem context_text_is_delimited_concatenation (py_repr : pyval -> string)
    (svc : Services) (query : string) (chunks contents : list pyval) :
  Forall2 (fun chunk c => getitem chunk "content" = inr c) chunks contents ->
  exists sources,
    outcome (format_context py_repr chunks)
      = inr (concat_all
               (map (fun c => nl +:+ "---" +:+ nl +:+ str py_repr c +:+ nl
                               +:+ "---" +:+ nl) contents),
             sources)
    /\ (chunks = [] ->
        outcome (format_context py_repr chunks) = inr (EmptyString, [])
        /\ exists prompt tl,
             trace (get_llm_answer py_repr svc query chunks)
               = ChatCompletionsCreate LLM_MODEL
                   [ {| role := "system"; content := prompt |};
                     {| role := "user"; content := query |} ] 0.0%float :: tl
             /\ prompt = grounding_instruction +:+ "Kein Kontext gefunden."
                           +:+ nl +:+ "    "
             /\ contains prompt "Kein Kontext gefunden.").
Proof.
  intros H. exists (flat_map (spec_labels py_repr) chunks).
  split; [by apply format_context_ok|].
  intros ->. split; [done|].
  destruct (invoke_llm_returns svc query (system_prompt EmptyString) [])
    as (answer & tl & Heq & _).
  exists (system_prompt EmptyString), tl. split; [|split; [done|]].
  - rewrite (get_llm_answer_unfold py_repr svc query [] EmptyString []) by done.
    by rewrite Heq.
  - by exists grounding_instruction, (nl +:+ "    ").
Qed.

Lemma context_text_is_delimited_concatenation_witness :
  exists sources,
    outcome (format_context Sample.repr [Sample.apple; Sample.garbled])
      = inr (concat_all
               (map (fun c => nl +:+ "---" +:+ nl +:+ str Sample.repr c +:+ nl
                               +:+ "---" +:+ nl)
                  [PStr "Apple focuses on hardware-software integration.";
                   PStr "Nvidia designs GPUs."]),
             sources)
    /\ ([Sample.apple; Sample.garbled] = [] ->
        outcome (format_context Sample.repr [Sample.apple; Sample.garbled])
          = inr (EmptyString, [])
        /\ exists prompt tl,
             trace (get_llm_answer Sample.repr Sample.up "Apple?"
                      [Sample.apple; Sample.garbled])
               = ChatCompletionsCreate LLM_MODEL
                   [ {| role := "system"; content := prompt |};
                     {| role := "user"; content := "Apple?" |} ] 0.0%float :: tl
             /\ prompt = grounding_instruction +:+ "Kein Kontext gefunden."
                           +:+ nl +:+ "    "
             /\ contains prompt "Kein Kontext gefunden.").
Proof.
  apply context_text_is_delimited_concatenation.
  repeat constructor.
Defined.

(** C4. Over records that each hold a content, the source list is made of
    the labels of the records in order: exactly one label
    [ticker (company)] for a record whose metadata has a non-empty ticker
    string, with [N/A] for a missing company, and no label for a record
    whose metadata has no ticker, whose content is in the context text all
    the same. *)
Theorem source_labels_per_chunk (py_repr : pyval -> string)
    (chunks contents : list pyval) :
  Forall2 (fun chunk c => getitem chunk "content" = inr c) chunks contents ->
  outcome (format_context py_repr chunks)
    = inr (concat_all (map (delimited py_repr) contents),
           flat_map (spec_labels py_repr) chunks)
  /\ forall chunk, chunk ∈ chunks ->
       (forall t, metadata_field chunk "Ticker" = Some (PStr t) ->
          t <> EmptyString ->
          spec_labels py_repr chunk
            = [t +:+ " (" +:+
               match metadata_field chunk "Company" with
               | Some c => str py_repr c
               | None => "N/A"
               end +:+ ")"])
       /\ (metadata_field chunk "Ticker" = None ->
           spec_labels py_repr chunk = [])
       /\ (forall vars, exists c,
             getitem chunk "content" = inr c
             /\ outcome (loop_body py_repr vars chunk)
                  = inr (fst vars +:+ delimited py_repr c,
                         snd vars ++ spec_labels py_repr chunk)).
Proof.
  intros H. split; [by apply format_context_ok|].
  intros chunk Hin. split; [|split].
  - intros t Ht Hne. unfold spec_labels, company_text. rewrite Ht.
    cbn [truthy str]. destruct (String.eqb_spec t EmptyString); done.
  - intros Ht. unfold spec_labels. by rewrite Ht.
  - intros vars. apply list_elem_of_lookup in Hin as [i Hi].
    destruct (Forall2_lookup_l _ _ _ _ _ H Hi) as (c & _ & Hc).
    exists c. split; [done|]. by apply loop_body_ok.
Qed.

Lemma source_labels_per_chunk_witness :
  outcome (format_context Sample.repr [Sample.apple; Sample.untagged])
    = inr ("
---
Apple focuses on hardware-software integration.
---

---
The index is rebalanced every year.
---
", ["AAPL (Apple Inc.)"]).
Proof.
  pose proof (source_labels_per_chunk Sample.repr
                [Sample.apple; Sample.untagged]
                [PStr "Apple focuses on hardware-software integration.";
                 PStr "The index is rebalanced every year."]) as H.
  destruct H as [H _]; [repeat constructor|]. exact H.
Defined.

(** C5. When the model answers, the result is the raw answer if no source
    label was produced, and otherwise the raw answer, a blank line, the
    heading and the labels; the labels listed are the distinct labels in
    ascending order.  With no chunks there is no label, hence no section. *)
Theorem sources_section_iff_labels (py_repr : pyval -> string)
    (svc : Services) (query : string) (chunks : list pyval) (ctx : string)
    (sources : list string) (raw : string) (others : list string) :
  outcome (format_context py_repr chunks) = inr (ctx, sources) ->
  chat_completions_create svc LLM_MODEL
    [ {| role := "system"; content := system_prompt ctx |};
      {| role := "user"; content := query |} ] 0.0%float = inr (raw :: others) ->
  outcome (get_llm_answer py_repr svc query chunks)
    = inr match sources with
          | [] => raw
          | _ :: _ =>
              raw +:+ nl +:+ nl +:+ "**Quellen:**" +:+ nl +:+ "- "
                  +:+ join (nl +:+ "- ") (sorted_set sources)
          end
  /\ (outcome (get_llm_answer py_repr svc query chunks) = inr raw
      <-> sources = [])
  /\ StronglySorted String.le (sorted_set sources)
  /\ NoDup (sorted_set sources)
  /\ (forall label, label ∈ sorted_set sources <-> label ∈ sources)
  /\ (chunks = [] -> outcome (get_llm_answer py_repr svc query chunks) = inr raw)
  /\ (forall msft aapl,
        sorted_set ["MSFT (" +:+ msft +:+ ")"; "AAPL (" +:+ aapl +:+ ")";
                    "MSFT (" +:+ msft +:+ ")"]
          = ["AAPL (" +:+ aapl +:+ ")"; "MSFT (" +:+ msft +:+ ")"]).
Proof.
  intros Hctx Hllm.
  assert (outcome (get_llm_answer py_repr svc query chunks)
            = inr match sources with
                  | [] => raw
                  | _ :: _ =>
                      raw +:+ nl +:+ nl +:+ "**Quellen:**" +:+ nl +:+ "- "
                          +:+ join (nl +:+ "- ") (sorted_set sources)
                  end) as Hout.
  { rewrite (get_llm_answer_unfold _ _ _ _ _ _ Hctx). cbn [outcome snd].
    pose proof (invoke_llm_cases svc query (system_prompt ctx) sources) as Hc.
    cbn zeta in Hc. rewrite Hllm in Hc. rewrite Hc. cbn [snd].
    destruct sources as [|s sources]; [done|].
    cbn [length Nat.eqb negb]. unfold sources_section.
    by rewrite !string_app_assoc. }
  split; [done|]. split.
  { rewrite Hout. destruct sources as [|s sources]; [done|].
    split; [|done]. intros Heq. injection Heq as Heq.
    apply string_app_id_r in Heq. unfold nl in Heq.
    by rewrite string_app_cons in Heq. }
  split; [apply StronglySorted_sorted_set|].
  split; [apply NoDup_sorted_set|].
  split; [apply elem_of_sorted_set|].
  split.
  { intros ->. rewrite Hout. cbn in Hctx. by injection Hctx as _ <-. }
  intros msft aapl. apply sorted_set_unique.
  - repeat constructor.
  - apply NoDup_cons. split; [|apply NoDup_singleton].
    rewrite list_elem_of_singleton. discriminate.
  - intros x. rewrite !elem_of_cons, elem_of_nil. tauto.
Qed.

Lemma sources_section_iff_labels_witness :
  outcome (get_llm_answer Sample.repr Sample.up "Apple und Microsoft?"
             [Sample.microsoft; Sample.apple; Sample.microsoft])
    = inr "Apple integrates hardware and software.

**Quellen:**
- AAPL (Apple Inc.)
- MSFT (Microsoft Corp.)".
Proof.
  pose proof (sources_section_iff_labels Sample.repr Sample.up
                "Apple und Microsoft?"
                [Sample.microsoft; Sample.apple; Sample.microsoft]
                _ _ "Apple integrates hardware and software." []
                eq_refl eq_refl) as [H _].
  rewrite H. vm_compute. reflexivity.
Defined.

(** C6. When the store request raises, [find_similar_chunks] reports the
    error on the page and returns the empty list, which is also what it
    returns when the store finds nothing; the run goes on to the generation
    step with no chunks. *)
Theorem store_error_is_empty_result (py_repr : pyval -> string)
    (svc : Services) (emb : embedding) (e : exn) :
  rpc_execute svc "match_nasdaq_chunks"
    {| query_embedding := emb; match_threshold := 0.4%float;
       match_count := 5 |} = inl e ->
  find_similar_chunks svc emb
    = ([match_request emb;
        StError "Fehler bei der Vektorsuche in Supabase: " e], inr [])
  /\ (forall svc',
        rpc_execute svc' "match_nasdaq_chunks"
          {| query_embedding := emb; match_threshold := 0.4%float;
             match_count := 5 |} = inr [] ->
        outcome (find_similar_chunks svc' emb)
          = outcome (find_similar_chunks svc emb))
  /\ (forall query,
        outcome (get_query_embedding svc query) = inr (Some emb) ->
        emb <> [] ->
        outcome (rag_process py_repr svc query)
          = outcome (get_llm_answer py_repr svc query [])
        /\ chat_request query EmptyString
             ∈ trace (rag_process py_repr svc query)).
Proof.
  intros Hrpc.
  pose proof (find_similar_chunks_cases svc emb) as Hf. rewrite Hrpc in Hf.
  split; [done|]. split.
  { intros svc' Hrpc'.
    pose proof (find_similar_chunks_cases svc' emb) as Hf'.
    rewrite Hrpc' in Hf'. by rewrite Hf, Hf'. }
  intros query He Hne.
  rewrite (rag_process_unfold _ _ _ _ He Hne).
  erewrite (bind_inr (find_similar_chunks svc emb)) by (by rewrite Hf).
  cbn [outcome trace fst snd]. split; [done|].
  rewrite (get_llm_answer_unfold py_repr svc query [] EmptyString []) by done.
  destruct (invoke_llm_returns svc query (system_prompt EmptyString) [])
    as (answer & tl & Heq & _).
  unfold trace. rewrite Heq. cbn [fst].
  rewrite !elem_of_app. right. right. right. apply elem_of_cons. by left.
Qed.

Lemma store_error_is_empty_result_witness :
  outcome (rag_process Sample.repr Sample.store_down "Tesla?")
    = outcome (rag_process Sample.repr Sample.store_empty "Tesla?").
Proof.
  pose proof (store_error_is_empty_result Sample.repr Sample.store_down
                Sample.vector (ServiceError "timeout") eq_refl)
    as (_ & _ & H).
  destruct (H "Tesla?" eq_refl) as [-> _]; [discriminate|].
  reflexivity.
Defined.

(** C7. If the chat request made by [get_llm_answer] raises, the function
    returns the fixed error string; it does not raise. *)
Theorem llm_failure_gives_fixed_string (py_repr : pyval -> string)
    (svc : Services) (query : string) (chunks : list pyval)
    (model : string) (msgs : list message) (temp : float) (e : exn) :
  ChatCompletionsCreate model msgs temp
    ∈ trace (get_llm_answer py_repr svc query chunks) ->
  chat_completions_create svc model msgs temp = inl e ->
  outcome (get_llm_answer py_repr svc query chunks)
    = inr "Es gab einen Fehler bei der Generierung der Antwort.".
Proof.
  intros Hin Hllm.
  destruct (chat_event_of_get_llm_answer _ _ _ _ _ _ _ Hin)
    as (ctx & sources & Hctx & Heq).
  unfold chat_request in Heq. injection Heq as -> -> ->.
  rewrite (get_llm_answer_unfold _ _ _ _ _ _ Hctx). cbn [outcome snd].
  pose proof (invoke_llm_cases svc query (system_prompt ctx) sources) as Hc.
  cbn zeta in Hc. rewrite Hllm in Hc. by rewrite Hc.
Qed.

Lemma llm_failure_gives_fixed_string_witness :
  outcome (get_llm_answer Sample.repr Sample.llm_down "Apple?" [Sample.apple])
    = inr "Es gab einen Fehler bei der Generierung der Antwort.".
Proof.
  apply (llm_failure_gives_fixed_string Sample.repr Sample.llm_down "Apple?"
           [Sample.apple] LLM_MODEL
           [ {| role := "system";
                content := system_prompt (delimited Sample.repr
                  (PStr "Apple focuses on hardware-software integration.")) |};
             {| role := "user"; content := "Apple?" |} ]
           0.0%float (ServiceError "429")).
  - vm_compute. apply list_elem_of_here.
  - reflexivity.
Defined.

(** C8. Every chat request made by [get_llm_answer] names the model
    gpt-4o-mini, has temperature 0.0 and two messages: a system message that
    is the grounding instruction of the source, word for word, followed by
    the assembled context (or its placeholder), and a user message that is
    the query as given. *)
Theorem llm_invocation_shape (py_repr : pyval -> string)
    (svc : Services) (query : string) (chunks : list pyval)
    (model : string) (msgs : list message) (temp : float) :
  ChatCompletionsCreate model msgs temp
    ∈ trace (get_llm_answer py_repr svc query chunks) ->
  model = "gpt-4o-mini" /\ temp = 0.0%float
  /\ exists ctx sources,
       outcome (format_context py_repr chunks) = inr (ctx, sources)
       /\ msgs = [ {| role := "system";
                      content :=
                        "
    Du bist ein Assistent für Finanzanalysen, spezialisiert auf den Nasdaq-100.
    Antworte auf die Frage des Benutzers basierend *ausschließlich* auf dem folgenden Kontext.
    Wenn der Kontext die Antwort nicht enthält, sage: "
                        +:+ String (Ascii.ascii_of_nat 34)
                              "Ich habe dazu keine Informationen in meiner Datenbank."
                        +:+ String (Ascii.ascii_of_nat 34) "
    Sei präzise und zitiere Fakten, wenn möglich.

    Kontext:
    "
                        +:+ (if String.eqb ctx EmptyString
                             then "Kein Kontext gefunden." else ctx)
                        +:+ "
    " |};
                   {| role := "user"; content := query |} ].
Proof.
  intros Hin.
  destruct (chat_event_of_get_llm_answer _ _ _ _ _ _ _ Hin)
    as (ctx & sources & Hctx & Heq).
  unfold chat_request in Heq. injection Heq as -> -> ->.
  split; [done|]. split; [done|]. exists ctx, sources. split; [done|].
  unfold system_prompt. cbn [truthy].
  destruct (String.eqb ctx EmptyString); reflexivity.
Qed.

Lemma llm_invocation_shape_witness :
  LLM_MODEL = "gpt-4o-mini" /\ 0.0%float = 0.0%float
  /\ exists ctx sources,
       outcome (format_context Sample.repr [Sample.apple]) = inr (ctx, sources)
       /\ [ {| role := "system";
               content :=
                 system_prompt
                   (delimited Sample.repr
                      (PStr "Apple focuses on hardware-software integration.")) |};
            {| role := "user"; content := "Apple?" |} ]
          = [ {| role := "system";
                 content :=
                   "
    Du bist ein Assistent für Finanzanalysen, spezialisiert auf den Nasdaq-100.
    Antworte auf die Frage des Benutzers basierend *ausschließlich* auf dem folgenden Kontext.
    Wenn der Kontext die Antwort nicht enthält, sage: "
                   +:+ String (Ascii.ascii_of_nat 34)
                         "Ich habe dazu keine Informationen in meiner Datenbank."
                   +:+ String (Ascii.ascii_of_nat 34) "
    Sei präzise und zitiere Fakten, wenn möglich.

    Kontext:
    "
                   +:+ (if String.eqb ctx EmptyString
                        then "Kein Kontext gefunden." else ctx)
                   +:+ "
    " |};
              {| role := "user"; content := "Apple?" |} ].
Proof.
  apply (llm_invocation_shape Sample.repr Sample.up "Apple?" [Sample.apple]).
  vm_compute. apply list_elem_of_here.
Defined.

(** C9. A record whose metadata is not a mapping does not stop the loop:
    it adds its content to the context and nothing to the sources, so the
    sources of a list of records are those of the list without it. *)
Theorem malformed_metadata_tolerated (py_repr : pyval -> string)
    (chunk c m : pyval) :
  getitem chunk "content" = inr c ->
  getitem chunk "metadata" = inr m ->
  (forall md, m <> PDict md) ->
  (forall sources,
     outcome (chunk_sources py_repr chunk sources) = inr sources)
  /\ (forall vars,
        outcome (loop_body py_repr vars chunk)
          = inr (fst vars +:+ delimited py_repr c, snd vars))
  /\ (forall pre post cpre cpost,
        Forall2 (fun chunk c => getitem chunk "content" = inr c) pre cpre ->
        Forall2 (fun chunk c => getitem chunk "content" = inr c) post cpost ->
        exists sources,
          outcome (format_context py_repr (pre ++ chunk :: post))
            = inr (concat_all (map (delimited py_repr) (cpre ++ c :: cpost)),
                   sources)
          /\ outcome (format_context py_repr (pre ++ post))
               = inr (concat_all (map (delimited py_repr) (cpre ++ cpost)),
                      sources)).
Proof.
  intros Hc Hm Hmd.
  assert (spec_labels py_repr chunk = []) as Hnone.
  { unfold spec_labels, metadata_field, getitem in *.
    destruct chunk as [| | | | | |d]; try done.
    destruct (d !! "metadata") as [m'|]; [|done].
    injection Hm as ->. destruct m; try done. by destruct (Hmd d0). }
  split; [|split].
  - intros sources. destruct (chunk_sources_spec py_repr chunk sources) as [-> _].
    by rewrite Hnone, app_nil_r.
  - intros vars. destruct (loop_body_ok py_repr vars chunk c Hc) as [-> _].
    by rewrite Hnone, app_nil_r.
  - intros pre post cpre cpost Hpre Hpost.
    exists (flat_map (spec_labels py_repr) (pre ++ post)). split.
    + destruct (format_context_ok py_repr (pre ++ chunk :: post)
                  (cpre ++ c :: cpost)) as [-> _].
      { apply Forall2_app; [done|]. by constructor. }
      by rewrite !flat_map_app; cbn [flat_map]; rewrite Hnone.
    + destruct (format_context_ok py_repr (pre ++ post) (cpre ++ cpost))
        as [-> _]; [by apply Forall2_app|done].
Qed.

Lemma malformed_metadata_tolerated_witness :
  outcome (format_context Sample.repr
             [Sample.apple; Sample.garbled; Sample.microsoft])
    = inr ("
---
Apple focuses on hardware-software integration.
---

---
Nvidia designs GPUs.
---

---
Microsoft sells cloud services.
---
", ["AAPL (Apple Inc.)"; "MSFT (Microsoft Corp.)"]).
Proof.
  pose proof (malformed_metadata_tolerated Sample.repr Sample.garbled
                (PStr "Nvidia designs GPUs.") (PStr "NVDA")
                eq_refl eq_refl) as (_ & _ & H); [discriminate|].
  destruct (H [Sample.apple] [Sample.microsoft]
              [PStr "Apple focuses on hardware-software integration."]
              [PStr "Microsoft sells cloud services."])
    as (sources & H1 & H2); [repeat constructor..|].
  cbn [app] in H1. rewrite H1. f_equal.
  vm_compute in H2. injection H2 as <-. vm_compute. reflexivity.
Defined.

(** C10. A record that is not a mapping, or that has no content entry,
    makes [get_llm_answer] raise while it assembles the context: the
    exception is the [KeyError] or [TypeError] of the content access, and
    no request reaches the language model. *)
Theorem missing_content_aborts (py_repr : pyval -> string) (svc : Services)
    (query : string) (chunks : list pyval) :
  Exists lacks_content chunks ->
  exists e,
    outcome (get_llm_answer py_repr svc query chunks) = inl e
    /\ (e = KeyError "content" \/ e = TypeError)
    /\ Forall is_print (trace (get_llm_answer py_repr svc query chunks)).
Proof.
  intros H.
  destruct (format_context_raises py_repr chunks) as (e & He & Hk & Hp).
  { eapply Exists_impl; [exact H|]. intros chunk Hl c.
    unfold lacks_content, getitem in *. destruct chunk; try done.
    by rewrite Hl. }
  exists e. rewrite (get_llm_answer_raises _ _ _ _ _ He). by repeat split.
Qed.

Lemma missing_content_aborts_witness :
  exists e,
    outcome (get_llm_answer Sample.repr Sample.up "Tesla?"
               [Sample.apple; Sample.headless]) = inl e
    /\ (e = KeyError "content" \/ e = TypeError)
    /\ Forall is_print
         (trace (get_llm_answer Sample.repr Sample.up "Tesla?"
                   [Sample.apple; Sample.headless])).
Proof.
  apply missing_content_aborts. apply Exists_cons_tl, Exists_cons_hd.
  reflexivity.
Defined.

(** ** Further properties of the pipeline *)

Lemma service_calls_app (t1 t2 : list event) :
  service_calls (t1 ++ t2) = service_calls t1 ++ service_calls t2.
Proof. apply List.filter_app. Qed.

Lemma service_calls_none (t : list event) :
  Forall (fun ev => ~ is_service_call ev) t -> service_calls t = [].
Proof.
  induction 1 as [|ev t Hev _ IH]; [done|].
  unfold service_calls in *. cbn [List.filter]. rewrite IH.
  by destruct ev; try done; destruct Hev.
Qed.

Lemma service_calls_prints (t : list event) :
  Forall is_print t -> service_calls t = [].
Proof.
  intros H. apply service_calls_none. eapply Forall_impl; [exact H|].
  intros ev. apply is_print_not_service.
Qed.

(** Each record is readable or lacks its content. *)
Lemma readable_or_lacks (chunk : pyval) :
  lacks_content chunk \/ exists c, getitem chunk "content" = inr c.
Proof.
  destruct chunk as [| | | | | |d]; try (by left).
  cbn. destruct (d !! "content") as [c|]; [right; by exists c | by left].
Qed.

Lemma lacks_content_unreadable (chunk c : pyval) :
  lacks_content chunk -> getitem chunk "content" <> inr c.
Proof.
  unfold lacks_content, getitem. destruct chunk; try done. by intros ->.
Qed.

Lemma all_readable_or_one_lacks (chunks : list pyval) :
  Exists lacks_content chunks
  \/ exists contents,
       Forall2 (fun chunk c => getitem chunk "content" = inr c) chunks contents.
Proof.
  induction chunks as [|chunk chunks IH]; [right; by exists []|].
  destruct (readable_or_lacks chunk) as [Hl|[c Hc]]; [left; by left|].
  destruct IH as [Hex|[contents Hall]]; [left; by right|].
  right. exists (c :: contents). by constructor.
Qed.

Section Calls.
Variable py_repr : pyval -> string.
Variable svc : Services.

Lemma get_query_embedding_returns (query : string) :
  exists r tl,
    get_query_embedding svc query
      = (EmbeddingsCreate [query] EMBEDDING_MODEL :: tl, inr r)
    /\ Forall (fun ev => ~ is_service_call ev) tl
    /\ (forall e0, r = Some e0
          <-> exists rest,
                embeddings_create svc [query] EMBEDDING_MODEL = inr (e0 :: rest)).
Proof.
  pose proof (get_query_embedding_cases svc query) as H.
  destruct (embeddings_create svc [query] EMBEDDING_MODEL) as [e|[|e0 data]];
    rewrite H; eexists _, _; (split; [reflexivity|]); split;
    try (repeat constructor; by intros []).
  - intros e0. split; [done|]. by intros [rest Hr].
  - intros e0. split; [done|]. by intros [rest Hr].
  - intros e1. split.
    + intros Heq. injection Heq as <-. by exists data.
    + intros [rest Hr]. by injection Hr as <- _.
Qed.

Lemma get_query_embedding_calls (query : string) :
  service_calls (trace (get_query_embedding svc query))
    = [EmbeddingsCreate [query] EMBEDDING_MODEL].
Proof.
  destruct (get_query_embedding_returns query) as (r & tl & -> & Htl & _).
  cbn [trace fst]. unfold service_calls. cbn [List.filter is_service_callb].
  f_equal. by apply service_calls_none.
Qed.

(** A falsy embedding, [None] or the empty vector, ends the run. *)
Lemma rag_process_falsy_embedding (query : string) (r : option embedding) :
  outcome (get_query_embedding svc query) = inr r ->
  r = None \/ r = Some [] ->
  rag_process py_repr svc query
    = (trace (get_query_embedding svc query),
       inr "Fehler: Konnte die Anfrage nicht verarbeiten.").
Proof.
  intros H Hr. unfold rag_process. erewrite bind_inr by exact H.
  destruct Hr as [-> | ->]; cbn [ret trace outcome fst snd];
    by rewrite app_nil_r.
Qed.

Lemma find_similar_chunks_returns (emb : embedding) :
  exists chunks tl,
    find_similar_chunks svc emb = (match_request emb :: tl, inr chunks)
    /\ Forall (fun ev => ~ is_service_call ev) tl
    /\ (chunks = []
        \/ rpc_execute svc "match_nasdaq_chunks"
             {| query_embedding := emb; match_threshold := 0.4%float;
                match_count := 5 |} = inr chunks).
Proof.
  pose proof (find_similar_chunks_cases svc emb) as Hf.
  destruct (rpc_execute _ _ _) as [e|data]; rewrite Hf; eexists _, _;
    (split; [reflexivity|]); split; try (by right); try (by left);
    repeat constructor; by intros [].
Qed.

(** The two ways [get_llm_answer] ends: an exception of the assembly and no
    request, or an answer after one chat request. *)
Lemma get_llm_answer_ends (query : string) (chunks : list pyval) :
  (exists e,
     outcome (format_context py_repr chunks) = inl e
     /\ outcome (get_llm_answer py_repr svc query chunks) = inl e
     /\ service_calls (trace (get_llm_answer py_repr svc query chunks)) = [])
  \/ (exists ctx sources answer,
        outcome (format_context py_repr chunks) = inr (ctx, sources)
        /\ outcome (get_llm_answer py_repr svc query chunks) = inr answer
        /\ service_calls (trace (get_llm_answer py_repr svc query chunks))
             = [chat_request query ctx]).
Proof.
  pose proof (format_context_trace py_repr chunks) as Hp.
  apply service_calls_prints in Hp.
  destruct (outcome (format_context py_repr chunks)) as [e|[ctx sources]] eqn:Ho.
  - left. exists e. rewrite (get_llm_answer_raises _ _ _ _ _ Ho). by cbn.
  - right. destruct (invoke_llm_returns svc query (system_prompt ctx) sources)
      as (answer & tl & Heq & Htl).
    exists ctx, sources, answer. split; [done|].
    rewrite (get_llm_answer_unfold _ _ _ _ _ _ Ho), Heq. cbn [trace outcome fst snd].
    split; [done|]. rewrite service_calls_app, Hp.
    unfold service_calls. cbn [List.filter is_service_callb app].
    f_equal. by apply service_calls_none.
Qed.

(** A run with a usable embedding: the embedding request, the store request,
    then [get_llm_answer] on what [find_similar_chunks] returned. *)
Lemma rag_process_with_embedding (query : string) (emb : embedding) :
  outcome (get_query_embedding svc query) = inr (Some emb) -> emb <> [] ->
  exists chunks,
    outcome (find_similar_chunks svc emb) = inr chunks
    /\ (chunks = []
        \/ rpc_execute svc "match_nasdaq_chunks"
             {| query_embedding := emb; match_threshold := 0.4%float;
                match_count := 5 |} = inr chunks)
    /\ outcome (rag_process py_repr svc query)
         = outcome (get_llm_answer py_repr svc query chunks)
    /\ service_calls (trace (rag_process py_repr svc query))
         = EmbeddingsCreate [query] EMBEDDING_MODEL :: match_request emb
             :: service_calls (trace (get_llm_answer py_repr svc query chunks)).
Proof.
  intros He Hne.
  destruct (find_similar_chunks_returns emb) as (chunks & tl & Hf & Htl & Hc).
  exists chunks. split; [by rewrite Hf|]. split; [done|].
  rewrite (rag_process_unfold _ _ _ _ He Hne).
  erewrite (bind_inr (find_similar_chunks svc emb)) by (by rewrite Hf).
  cbn [outcome trace fst snd]. split; [done|].
  rewrite !service_calls_app. fold (trace (get_query_embedding svc query)).
  rewrite get_query_embedding_calls, Hf. cbn [trace fst].
  change (service_calls (match_request emb :: tl))
    with (match_request emb :: service_calls tl).
  by rewrite (service_calls_none _ Htl).
Qed.

(** A run raises only out of the assembly, on a row the store returned. *)
Lemma rag_process_raises_inv (query : string) (e : exn) :
  outcome (rag_process py_repr svc query) = inl e ->
  (e = KeyError "content" \/ e = TypeError)
  /\ exists emb rows,
       outcome (get_query_embedding svc query) = inr (Some emb)
       /\ rpc_execute svc "match_nasdaq_chunks"
            {| query_embedding := emb; match_threshold := 0.4%float;
               match_count := 5 |} = inr rows
       /\ Exists lacks_content rows
       /\ service_calls (trace (rag_process py_repr svc query))
            = [EmbeddingsCreate [query] EMBEDDING_MODEL; match_request emb].
Proof.
  intros Hr.
  destruct (get_query_embedding_returns query) as (r & tl & Hq & _).
  assert (outcome (get_query_embedding svc query) = inr r) as Ho
    by (by rewrite Hq).
  destruct r as [[|x emb]|];
    try (rewrite (rag_process_falsy_embedding _ _ Ho) in Hr by auto; done).
  destruct (rag_process_with_embedding query (x :: emb))
    as (chunks & _ & Hrows & Hout & Hcalls); [done..|].
  rewrite Hout in Hr.
  destruct (get_llm_answer_ends query chunks)
    as [(e' & Hfc & Hg & Hnone)|(ctx & sources & answer & _ & Hg & _)];
    [|congruence].
  assert (e' = e) as -> by congruence.
  destruct (all_readable_or_one_lacks chunks) as [Hex|[contents Hall]].
  - destruct (format_context_raises py_repr chunks) as (e2 & He2 & Hk & _).
    { eapply Exists_impl; [exact Hex|]. intros chunk Hl c.
      by apply lacks_content_unreadable. }
    assert (e2 = e) as -> by congruence. split; [done|].
    exists (x :: emb), chunks. split; [done|]. split.
    { destruct Hrows as [->|]; [by apply Exists_nil in Hex | done]. }
    split; [done|]. by rewrite Hcalls, Hnone.
  - destruct (format_context_ok py_repr chunks contents Hall) as [Hok _].
    congruence.
Qed.

End Calls.

(** X1. [get_query_embedding] never raises.  It sends one request, with the
    query as a batch of one, and returns the first vector of the answer when
    there is one, [None] in every other case. *)
Theorem get_query_embedding_total (svc : Services) (query : string) :
  exists r tl,
    get_query_embedding svc query
      = (EmbeddingsCreate [query] EMBEDDING_MODEL :: tl, inr r)
    /\ Forall (fun ev => ~ is_service_call ev) tl
    /\ (forall e0, r = Some e0
          <-> exists rest,
                embeddings_create svc [query] EMBEDDING_MODEL = inr (e0 :: rest)).
Proof. apply get_query_embedding_returns. Qed.

(** X2. An embedding that is the empty vector is falsy: the run ends with
    the failure string, and neither the store nor the model is asked. *)
Theorem empty_embedding_short_circuits (py_repr : pyval -> string)
    (svc : Services) (query : string) :
  outcome (get_query_embedding svc query) = inr (Some []) ->
  rag_process py_repr svc query
    = ([EmbeddingsCreate [query] EMBEDDING_MODEL],
       inr "Fehler: Konnte die Anfrage nicht verarbeiten.").
Proof.
  intros H.
  rewrite (rag_process_falsy_embedding py_repr svc query (Some [])) by auto.
  f_equal. pose proof (get_query_embedding_cases svc query) as Hc.
  destruct (embeddings_create _ _ _) as [e|[|e0 data]]; rewrite Hc in *;
    by cbn in H.
Qed.

Lemma empty_embedding_short_circuits_witness :
  rag_process Sample.repr
    (Sample.services (inr [[]]) (inr [Sample.apple]) (inr ["unused"])) "Apple?"
    = ([EmbeddingsCreate ["Apple?"] EMBEDDING_MODEL],
       inr "Fehler: Konnte die Anfrage nicht verarbeiten.").
Proof. apply empty_embedding_short_circuits. reflexivity. Defined.


(** X4. A run raises only when the store returned a row without a readable
    content: the exception is the [KeyError] or [TypeError] of the content
    access, and the model was not asked.  No failure of a service leaves
    the run as an exception. *)
Theorem rag_process_raises_only_on_unreadable_row (py_repr : pyval -> string)
    (svc : Services) (query : string) (e : exn) :
  outcome (rag_process py_repr svc query) = inl e ->
  (e = KeyError "content" \/ e = TypeError)
  /\ exists emb rows,
       outcome (get_query_embedding svc query) = inr (Some emb)
       /\ rpc_execute svc "match_nasdaq_chunks"
            {| query_embedding := emb; match_threshold := 0.4%float;
               match_count := 5 |} = inr rows
       /\ Exists lacks_content rows
       /\ service_calls (trace (rag_process py_repr svc query))
            = [EmbeddingsCreate [query] EMBEDDING_MODEL; match_request emb].
Proof. apply rag_process_raises_inv. Qed.

Lemma rag_process_raises_only_on_unreadable_row_witness :
  (KeyError "content" = KeyError "content" \/ KeyError "content" = TypeError)
  /\ exists emb rows,
       outcome (get_query_embedding Demo.store_broken "Tesla?") = inr (Some emb)
       /\ rpc_execute Demo.store_broken "match_nasdaq_chunks"
            {| query_embedding := emb; match_threshold := 0.4%float;
               match_count := 5 |} = inr rows
       /\ Exists lacks_content rows
       /\ service_calls (trace (rag_process Sample.repr Demo.store_broken "Tesla?"))
            = [EmbeddingsCreate ["Tesla?"] EMBEDDING_MODEL; match_request emb].
Proof.
  apply (rag_process_raises_only_on_unreadable_row Sample.repr Demo.store_broken
           "Tesla?" (KeyError "content")).
  reflexivity.
Defined.

(** X5. When every row the store can return is a mapping with a content,
    a run never ends with an exception: a failure of the embedding service,
    of the store or of the model is caught where it occurs. *)
Theorem rag_process_never_raises_on_readable_rows (py_repr : pyval -> string)
    (svc : Services) (query : string) (e : exn) :
  (forall emb rows,
     rpc_execute svc "match_nasdaq_chunks"
       {| query_embedding := emb; match_threshold := 0.4%float;
          match_count := 5 |} = inr rows ->
     Forall (fun row => ~ lacks_content row) rows) ->
  outcome (rag_process py_repr svc query) <> inl e.
Proof.
  intros Hrows Ho.
  destruct (rag_process_raises_inv py_repr svc query e Ho)
    as (_ & emb & rows & _ & Hrpc & Hex & _).
  apply Exists_exists in Hex as (row & Hin & Hl).
  specialize (Hrows emb rows Hrpc). rewrite Forall_forall in Hrows.
  by destruct (Hrows row Hin).
Qed.

Lemma rag_process_never_raises_on_readable_rows_witness :
  outcome (rag_process Sample.repr Sample.llm_down "Apple?")
    <> inl (ServiceError "429").
Proof.
  apply rag_process_never_raises_on_readable_rows.
  intros emb rows Hrows. injection Hrows as <-.
  repeat constructor. vm_compute. discriminate.
Defined.

(** X6. A model response without choices is handled like a failed request:
    the index error is caught, reported on the page, and the fixed error
    string is returned. *)
Theorem empty_choices_give_fixed_string (py_repr : pyval -> string)
    (svc : Services) (query : string) (chunks : list pyval) (ctx : string)
    (sources : list string) :
  outcome (format_context py_repr chunks) = inr (ctx, sources) ->
  chat_completions_create svc LLM_MODEL
    [ {| role := "system"; content := system_prompt ctx |};
      {| role := "user"; content := query |} ] 0.0%float = inr [] ->
  get_llm_answer py_repr svc query chunks
    = (trace (format_context py_repr chunks)
         ++ [chat_request query ctx;
             StError "Fehler beim Aufruf des LLM: " IndexError],
       inr "Es gab einen Fehler bei der Generierung der Antwort.").
Proof.
  intros Hctx Hllm. rewrite (get_llm_answer_unfold _ _ _ _ _ _ Hctx).
  pose proof (invoke_llm_cases svc query (system_prompt ctx) sources) as Hc.
  cbn zeta in Hc. rewrite Hllm in Hc. by rewrite Hc.
Qed.

Lemma empty_choices_give_fixed_string_witness :
  get_llm_answer Sample.repr
    (Sample.services (inr [Sample.vector]) (inr []) (inr [])) "Apple?"
    [Sample.apple]
    = (trace (format_context Sample.repr [Sample.apple])
         ++ [chat_request "Apple?"
               (delimited Sample.repr
                  (PStr "Apple focuses on hardware-software integration."));
             StError "Fehler beim Aufruf des LLM: " IndexError],
       inr "Es gab einen Fehler bei der Generierung der Antwort.").
Proof.
  apply (empty_choices_give_fixed_string Sample.repr _ "Apple?" [Sample.apple]
           _ ["AAPL (Apple Inc.)"]); reflexivity.
Defined.

(** ** Further properties of the context assembly *)

Section Labels.
Variable py_repr : pyval -> string.

(** With a mapping as metadata the guarded block is silent. *)
Lemma chunk_sources_mapping (chunk : pyval) (d md : gmap string pyval)
    (sources : list string) :
  chunk = PDict d -> d !! "metadata" = Some (PDict md) ->
  chunk_sources py_repr chunk sources
    = ([], inr (sources ++ spec_labels py_repr chunk)).
Proof.
  intros -> Hm.
  unfold chunk_sources, spec_labels, company_text, metadata_field.
  cbn [get]. rewrite Hm. cbn [from_option id]. rewrite bind_lift_inr.
  destruct (md !! "Ticker") as [t|] eqn:Ht.
  - assert (truthy (PDict md) = true) as ->.
    { cbn [truthy]. destruct (Nat.eqb_spec (size md) 0) as [Hz|]; [|done].
      apply map_size_empty_iff in Hz. by rewrite Hz in Ht. }
    cbn [get]. rewrite Ht. cbn [from_option id]. rewrite bind_lift_inr.
    destruct (truthy t); [|by rewrite app_nil_r].
    rewrite !bind_lift_inr. by destruct (md !! "Company").
  - rewrite app_nil_r. destruct (truthy (PDict md)); [|done].
    cbn [get]. rewrite Ht. cbn [from_option id]. by rewrite bind_lift_inr.
Qed.

Lemma metadata_field_mapping (chunk : pyval) (key : string) (v : pyval) :
  metadata_field chunk key = Some v ->
  exists d md, chunk = PDict d /\ d !! "metadata" = Some (PDict md)
               /\ md !! key = Some v.
Proof.
  unfold metadata_field. destruct chunk as [| | | | | |d]; try done.
  destruct (d !! "metadata") as [[| | | | | |md]|] eqn:Hd; try done.
  intros H. by exists d, md.
Qed.

Lemma spec_labels_length (chunk : pyval) :
  length (spec_labels py_repr chunk) <= 1.
Proof.
  unfold spec_labels. destruct (metadata_field chunk "Ticker") as [t|]; [|cbn; lia].
  destruct (truthy t); cbn; lia.
Qed.

Lemma flat_map_spec_labels_length (chunks : list pyval) :
  length (flat_map (spec_labels py_repr) chunks) <= length chunks.
Proof.
  induction chunks as [|chunk chunks IH]; [done|].
  cbn [flat_map]. rewrite length_app. cbn [length].
  pose proof (spec_labels_length chunk). lia.
Qed.

Lemma foldM_app {A B} (f : A -> B -> M A) (l1 l2 : list B) (a : A) :
  foldM f (l1 ++ l2) a = (a' <- foldM f l1 a ;; foldM f l2 a').
Proof.
  revert a. induction l1 as [|b l1 IH]; intros a.
  - cbn [app foldM]. by rewrite bind_ret.
  - cbn [app foldM]. unfold bind at 1 3.
    destruct (f a b) as [t [e|a']]; cbn [fst snd]; [done|].
    rewrite IH. unfold bind.
    destruct (foldM f l1 a') as [t1 [e1|a1]]; cbn [fst snd]; [done|].
    by rewrite (assoc_L (++)).
Qed.

End Labels.

(** X7. The placeholder [N/A] stands for a missing company only: a company
    that is present but null is printed as [None]. *)
Theorem null_company_is_printed_as_None (py_repr : pyval -> string)
    (chunk : pyval) (t : string) (sources : list string) :
  metadata_field chunk "Ticker" = Some (PStr t) -> t <> EmptyString ->
  metadata_field chunk "Company" = Some PNone ->
  chunk_sources py_repr chunk sources
    = ([], inr (sources ++ [t +:+ " (None)"])).
Proof.
  intros Ht Hne Hc.
  destruct (metadata_field_mapping chunk "Ticker" _ Ht) as (d & md & Hd & Hm & _).
  rewrite (chunk_sources_mapping py_repr chunk d md sources Hd Hm).
  unfold spec_labels, company_text. rewrite Ht, Hc. cbn [truthy str].
  by destruct (String.eqb_spec t EmptyString).
Qed.

Lemma null_company_is_printed_as_None_witness :
  chunk_sources Sample.repr Demo.nameless ["AAPL (Apple Inc.)"]
    = ([], inr ["AAPL (Apple Inc.)"; "GOOGL (None)"]).
Proof.
  apply (null_company_is_printed_as_None Sample.repr Demo.nameless "GOOGL");
    [reflexivity | discriminate | reflexivity].
Defined.

(** X8. A ticker that is present but falsy (the empty string, null, zero)
    gives no label and no message, whatever the company is. *)
Theorem falsy_ticker_gives_no_label (py_repr : pyval -> string)
    (chunk t : pyval) (sources : list string) :
  metadata_field chunk "Ticker" = Some t -> truthy t = false ->
  chunk_sources py_repr chunk sources = ([], inr sources).
Proof.
  intros Ht Hf.
  destruct (metadata_field_mapping chunk "Ticker" _ Ht) as (d & md & Hd & Hm & _).
  rewrite (chunk_sources_mapping py_repr chunk d md sources Hd Hm).
  unfold spec_labels. by rewrite Ht, Hf, app_nil_r.
Qed.

Lemma falsy_ticker_gives_no_label_witness :
  chunk_sources Sample.repr Demo.blank_ticker ["AAPL (Apple Inc.)"]
    = ([], inr ["AAPL (Apple Inc.)"]).
Proof.
  apply (falsy_ticker_gives_no_label Sample.repr Demo.blank_ticker
           (PStr EmptyString)); reflexivity.
Defined.

(** X9. Metadata that is not a mapping: a falsy value (null, zero, an empty
    string or list) is skipped without a word, a truthy one makes the
    lookup raise, which is caught and printed once.  Either way the sources
    are left as they were. *)
Theorem non_mapping_metadata_is_reported_when_truthy
    (py_repr : pyval -> string) (chunk m : pyval) (sources : list string) :
  getitem chunk "metadata" = inr m -> (forall md, m <> PDict md) ->
  chunk_sources py_repr chunk sources
    = (if truthy m
       then [Printed "Fehler beim Parsen der Metadaten: " (AttributeError "get")]
       else [],
       inr sources).
Proof.
  intros Hm Hmd. unfold getitem in Hm.
  destruct chunk as [| | | | | |d]; try done.
  destruct (d !! "metadata") as [m'|] eqn:Hd; [|done]. injection Hm as ->.
  unfold chunk_sources. cbn [get]. rewrite Hd. cbn [from_option id].
  rewrite bind_lift_inr.
  destruct m as [|b|z|f|s|l|md]; try (by destruct (Hmd md));
    by destruct (truthy _).
Qed.

Lemma non_mapping_metadata_is_reported_when_truthy_witness :
  chunk_sources Sample.repr Sample.garbled ["AAPL (Apple Inc.)"]
    = ([Printed "Fehler beim Parsen der Metadaten: " (AttributeError "get")],
       inr ["AAPL (Apple Inc.)"]).
Proof.
  apply (non_mapping_metadata_is_reported_when_truthy Sample.repr
           Sample.garbled (PStr "NVDA")); [reflexivity | discriminate].
Defined.

(** X10. The sources section depends on the set of labels only, not on
    their order or on how often each occurs. *)
Theorem sources_section_order_independent (l1 l2 : list string) :
  (forall label, label ∈ l1 <-> label ∈ l2) ->
  sources_section l1 = sources_section l2.
Proof.
  intros H. unfold sources_section. do 6 f_equal.
  apply sorted_set_unique.
  - apply StronglySorted_sorted_set.
  - apply NoDup_sorted_set.
  - intros x. by rewrite elem_of_sorted_set, H.
Qed.

Lemma sources_section_order_independent_witness :
  sources_section ["MSFT (Microsoft Corp.)"; "AAPL (Apple Inc.)";
                   "MSFT (Microsoft Corp.)"]
    = sources_section ["AAPL (Apple Inc.)"; "MSFT (Microsoft Corp.)"].
Proof.
  apply sources_section_order_independent.
  intros label. rewrite !elem_of_cons, elem_of_nil. tauto.
Defined.

(** X11. The placeholder takes the place of the context only when there is
    no chunk: one chunk, even with an empty content, makes the context text
    non-empty, and the prompt then carries that text. *)
Theorem placeholder_only_without_chunks (py_repr : pyval -> string)
    (chunks : list pyval) (ctx : string) (sources : list string) :
  outcome (format_context py_repr chunks) = inr (ctx, sources) ->
  (ctx = EmptyString <-> chunks = [])
  /\ (chunks <> [] ->
      system_prompt ctx = grounding_instruction +:+ ctx +:+ nl +:+ "    ").
Proof.
  intros Ho.
  assert (ctx = EmptyString <-> chunks = []) as Hiff.
  { destruct (all_readable_or_one_lacks chunks) as [Hex|[contents Hall]].
    - destruct (format_context_raises py_repr chunks) as (e & He & _).
      { eapply Exists_impl; [exact Hex|]. intros chunk Hl c.
        by apply lacks_content_unreadable. }
      congruence.
    - destruct (format_context_ok py_repr chunks contents Hall) as [Hok _].
      rewrite Hok in Ho. injection Ho as <- _.
      destruct Hall as [|chunk c chunks contents _ _]; [done|].
      split; [|done]. cbn [map concat_all foldr]. unfold delimited, nl.
      by rewrite string_app_cons. }
  split; [done|]. intros Hne. unfold system_prompt. cbn [truthy].
  destruct (String.eqb_spec ctx EmptyString) as [Hc|_]; [|done].
  by apply Hiff in Hc.
Qed.

Lemma placeholder_only_without_chunks_witness :
  system_prompt (delimited Sample.repr (PStr "Nvidia designs GPUs."))
    = grounding_instruction
        +:+ delimited Sample.repr (PStr "Nvidia designs GPUs.")
        +:+ nl +:+ "    ".
Proof.
  refine (proj2 (placeholder_only_without_chunks Sample.repr [Sample.garbled]
                   _ [] eq_refl) _).
  discriminate.
Defined.

(** X12. There is at most one label per chunk, and the section lists at
    most as many labels as were collected. *)
Theorem labels_bounded_by_chunks (py_repr : pyval -> string)
    (chunks : list pyval) (ctx : string) (sources : list string) :
  outcome (format_context py_repr chunks) = inr (ctx, sources) ->
  length (sorted_set sources) <= length sources
  /\ length sources <= length chunks.
Proof.
  intros Ho. split.
  - apply submseteq_length, NoDup_submseteq; [apply NoDup_sorted_set|].
    intros x. by rewrite elem_of_sorted_set.
  - destruct (all_readable_or_one_lacks chunks) as [Hex|[contents Hall]].
    + destruct (format_context_raises py_repr chunks) as (e & He & _).
      { eapply Exists_impl; [exact Hex|]. intros chunk Hl c.
        by apply lacks_content_unreadable. }
      congruence.
    + destruct (format_context_ok py_repr chunks contents Hall) as [Hok _].
      rewrite Hok in Ho. injection Ho as _ <-.
      apply flat_map_spec_labels_length.
Qed.

Lemma labels_bounded_by_chunks_witness :
  length (sorted_set ["MSFT (Microsoft Corp.)"; "AAPL (Apple Inc.)";
                      "MSFT (Microsoft Corp.)"]) <= 3
  /\ 3 <= 4.
Proof.
  apply (labels_bounded_by_chunks Sample.repr
           [Sample.microsoft; Sample.apple; Sample.garbled; Sample.microsoft]
           (concat_all (map (delimited Sample.repr)
              [PStr "Microsoft sells cloud services.";
               PStr "Apple focuses on hardware-software integration.";
               PStr "Nvidia designs GPUs.";
               PStr "Microsoft sells cloud services."]))
           ["MSFT (Microsoft Corp.)"; "AAPL (Apple Inc.)";
            "MSFT (Microsoft Corp.)"]).
  reflexivity.
Defined.

(** X13. The loop stops at the first record without a readable content:
    what was printed for the records before it is all that happens, and the
    records after it are not looked at. *)
Theorem assembly_stops_at_first_unreadable (py_repr : pyval -> string)
    (pre post cpre : list pyval) (bad : pyval) :
  Forall2 (fun chunk c => getitem chunk "content" = inr c) pre cpre ->
  lacks_content bad ->
  exists e,
    format_context py_repr (pre ++ bad :: post)
      = (trace (format_context py_repr pre), inl e)
    /\ getitem bad "content" = inl e.
Proof.
  intros Hpre Hbad.
  destruct (getitem bad "content") as [e|c] eqn:Hg;
    [|by destruct (lacks_content_unreadable bad c Hbad)].
  exists e. split; [|done].
  assert (format_context py_repr (pre ++ bad :: post)
            = foldM (loop_body py_repr) (pre ++ bad :: post) (EmptyString, []))
    as -> by (unfold format_context; by destruct pre).
  assert (trace (format_context py_repr pre)
            = trace (foldM (loop_body py_repr) pre (EmptyString, [])))
    as -> by (unfold format_context; by destruct pre).
  rewrite foldM_app.
  destruct (foldM_loop_body_ok py_repr pre cpre (EmptyString, []) Hpre)
    as [Hok _].
  erewrite bind_inr by exact Hok. cbn [foldM].
  rewrite (loop_body_raises py_repr _ bad e Hg). cbn [bind fst snd trace outcome].
  by rewrite app_nil_r.
Qed.

Lemma assembly_stops_at_first_unreadable_witness :
  exists e,
    format_context Sample.repr
      ([Sample.garbled] ++ Sample.headless :: [Sample.apple])
      = (trace (format_context Sample.repr [Sample.garbled]), inl e)
    /\ getitem Sample.headless "content" = inl e.
Proof.
  apply (assembly_stops_at_first_unreadable Sample.repr [Sample.garbled]
           [Sample.apple] [PStr "Nvidia designs GPUs."] Sample.headless).
  - repeat constructor.
  - reflexivity.
Defined.

(** ** Start-up *)

Lemma get_openai_client_cases (p : Platform) (key : pyval) :
  (truthy key = false
   /\ get_openai_client p key
        = ([StErrorText "OPENAI_API_KEY nicht gefunden! Bitte in den Streamlit Secrets eintragen."],
           inr None))
  \/ (truthy key = true
      /\ ((exists e, OpenAI p key = inl e
                     /\ get_openai_client p key = ([], inl e))
          \/ (OpenAI p key = inr tt
              /\ get_openai_client p key = ([], inr (Some tt))))).
Proof.
  unfold get_openai_client. destruct (truthy key); [right|left; done].
  split; [done|]. cbn [negb].
  destruct (OpenAI p key) as [e|[]]; [left; by exists e | by right].
Qed.

Lemma get_supabase_client_cases (p : Platform) (url key : pyval) :
  (truthy url && truthy key = false
   /\ get_supabase_client p url key
        = ([StErrorText "SUPABASE_URL oder SUPABASE_KEY nicht gefunden! Bitte in den Streamlit Secrets eintragen."],
           inr None))
  \/ (truthy url && truthy key = true
      /\ ((exists e, create_client p url key = inl e
                     /\ get_supabase_client p url key = ([], inl e))
          \/ (create_client p url key = inr tt
              /\ get_supabase_client p url key = ([], inr (Some tt))))).
Proof.
  unfold get_supabase_client.
  destruct (truthy url), (truthy key); cbn [negb orb andb];
    try (left; done).
  right. split; [done|].
  destruct (create_client p url key) as [e|[]]; [left; by exists e | by right].
Qed.

(** The part of the script before the page is [Ready] exactly when the
    three secrets are truthy and both constructors return; nothing is shown
    then. *)
Lemma startup_ready (p : Platform) :
  snd (startup p) = Ready
  <-> exists key url skey,
        get_secret p "OPENAI_API_KEY" = inr key
        /\ get_secret p "SUPABASE_URL" = inr url
        /\ get_secret p "SUPABASE_KEY" = inr skey
        /\ truthy key = true /\ truthy url = true /\ truthy skey = true
        /\ OpenAI p key = inr tt /\ create_client p url skey = inr tt.
Proof.
  unfold startup. split.
  - destruct (get_secret p "OPENAI_API_KEY") as [e|key]; [done|].
    destruct (get_secret p "SUPABASE_URL") as [e|url]; [done|].
    destruct (get_secret p "SUPABASE_KEY") as [e|skey]; [done|].
    cbn zeta.
    destruct (get_openai_client_cases p key)
      as [[Hk ->]|[Hk [(e & Ho & ->)|[Ho ->]]]];
      destruct (get_supabase_client_cases p url skey)
        as [[Hs ->]|[Hs [(e' & Hc & ->)|[Hc ->]]]]; cbn; try done.
    intros _. apply andb_true_iff in Hs as [Hu Hs]. by exists key, url, skey.
  - intros (key & url & skey & -> & -> & -> & Hk & Hu & Hs & Ho & Hc).
    cbn zeta. unfold get_openai_client, get_supabase_client.
    by rewrite Hk, Hu, Hs, Ho, Hc.
Qed.

Lemma startup_ready_silent (p : Platform) :
  snd (startup p) = Ready -> fst (startup p) = [].
Proof.
  intros H. pose proof H as H'.
  apply startup_ready in H'
    as (key & url & skey & Hg1 & Hg2 & Hg3 & Hk & Hu & Hs & Ho & Hc).
  unfold startup. rewrite Hg1, Hg2, Hg3. cbn zeta.
  unfold get_openai_client, get_supabase_client.
  by rewrite Hk, Hu, Hs, Ho, Hc.
Qed.


(** Without stored calls the cached start-up is the plain one. *)
Lemma startup_cached_no_cache (p : Platform) :
  fst (startup_cached p no_cache) = startup p.
Proof.
  unfold startup_cached, startup, no_cache. cbn [openai_entry supabase_entry].
  destruct (get_secret p "OPENAI_API_KEY") as [e|key]; [done|].
  destruct (get_secret p "SUPABASE_URL") as [e|url]; [done|].
  destruct (get_secret p "SUPABASE_KEY") as [e|skey]; [done|].
  cbn [cache_resource fst snd].
  destruct (get_openai_client p key) as [t1 [e|client]]; cbn [fst snd]; [done|].
  destruct (get_supabase_client p url skey) as [t2 [e|supabase]];
    cbn [fst snd]; [done|].
  by destruct (negb _ || negb _).
Qed.

(** A cached call that returns a client found it stored or built it. *)
Lemma cached_openai_client (p : Platform) (entry : option cache_entry)
    (key : pyval) :
  snd (fst (cache_resource entry (get_openai_client p key))) = inr (Some tt) ->
  client_available entry (truthy key = true /\ OpenAI p key = inr tt).
Proof.
  destruct entry as [[replay stored]|]; cbn [cache_resource fst snd client_available].
  - congruence.
  - destruct (get_openai_client_cases p key)
      as [[Hk ->]|[Hk [(e & Ho & ->)|[Ho ->]]]]; done.
Qed.

Lemma cached_supabase_client (p : Platform) (entry : option cache_entry)
    (url skey : pyval) :
  snd (fst (cache_resource entry (get_supabase_client p url skey)))
    = inr (Some tt) ->
  client_available entry
    (truthy url = true /\ truthy skey = true
     /\ create_client p url skey = inr tt).
Proof.
  destruct entry as [[replay stored]|]; cbn [cache_resource fst snd client_available].
  - congruence.
  - destruct (get_supabase_client_cases p url skey)
      as [[Hs ->]|[Hs [(e & Hc & ->)|[Hc ->]]]]; try done.
    intros _. by apply andb_true_iff in Hs as [Hu Hs].
Qed.

(** In any run of the process, start-up gets through exactly when the three
    secrets can be read and each client is stored from an earlier call or
    can be built now. *)
Lemma startup_cached_ready (p : Platform) (c : Cache) :
  snd (fst (startup_cached p c)) = Ready
  <-> exists key url skey,
        get_secret p "OPENAI_API_KEY" = inr key
        /\ get_secret p "SUPABASE_URL" = inr url
        /\ get_secret p "SUPABASE_KEY" = inr skey
        /\ client_available (openai_entry c)
             (truthy key = true /\ OpenAI p key = inr tt)
        /\ client_available (supabase_entry c)
             (truthy url = true /\ truthy skey = true
              /\ create_client p url skey = inr tt).
Proof.
  unfold startup_cached. split.
  - destruct (get_secret p "OPENAI_API_KEY") as [e|key]; [done|].
    destruct (get_secret p "SUPABASE_URL") as [e|url]; [done|].
    destruct (get_secret p "SUPABASE_KEY") as [e|skey]; [done|].
    cbn zeta. intros H. exists key, url, skey. do 3 (split; [done|]).
    destruct (snd (fst (cache_resource (openai_entry c)
                          (get_openai_client p key))))
      as [e|[[]|]] eqn:H1; [done| |].
    2:{ destruct (snd (fst (cache_resource (supabase_entry c)
                              (get_supabase_client p url skey))))
          as [e|[[]|]]; done. }
    destruct (snd (fst (cache_resource (supabase_entry c)
                          (get_supabase_client p url skey))))
      as [e|[[]|]] eqn:H2; [done| |done].
    split.
    + by apply cached_openai_client.
    + by apply cached_supabase_client.
  - intros (key & url & skey & -> & -> & -> & Ho & Hs). cbn zeta.
    assert (snd (fst (cache_resource (openai_entry c)
                        (get_openai_client p key))) = inr (Some tt)) as ->.
    { destruct (openai_entry c) as [[t1 stored]|];
        cbn [client_available cache_resource fst snd] in *; [by rewrite Ho|].
      destruct Ho as [Hk Ho]. unfold get_openai_client. by rewrite Hk, Ho. }
    assert (snd (fst (cache_resource (supabase_entry c)
                        (get_supabase_client p url skey))) = inr (Some tt)) as ->.
    { destruct (supabase_entry c) as [[t2 stored]|];
        cbn [client_available cache_resource fst snd] in *; [by rewrite Hs|].
      destruct Hs as (Hu & Hs & Hc). unfold get_supabase_client.
      by rewrite Hu, Hs, Hc. }
    done.
Qed.

(** X14. In any run of the process, start-up gets through exactly when the
    three secrets can be read and each client is either stored by an
    earlier call or built now from truthy secrets by a constructor that
    returns.  With nothing stored, that is: the three secrets are truthy
    and both constructors return, and nothing is shown then. *)
Theorem startup_ready_iff_configured (p : Platform) (c : Cache) :
  (snd (fst (startup_cached p c)) = Ready
   <-> exists key url skey,
         get_secret p "OPENAI_API_KEY" = inr key
         /\ get_secret p "SUPABASE_URL" = inr url
         /\ get_secret p "SUPABASE_KEY" = inr skey
         /\ client_available (openai_entry c)
              (truthy key = true /\ OpenAI p key = inr tt)
         /\ client_available (supabase_entry c)
              (truthy url = true /\ truthy skey = true
               /\ create_client p url skey = inr tt))
  /\ (snd (fst (startup_cached p no_cache)) = Ready ->
      fst (fst (startup_cached p no_cache)) = []).
Proof.
  split; [apply startup_cached_ready|].
  rewrite startup_cached_no_cache. apply startup_ready_silent.
Qed.

Lemma startup_ready_iff_configured_witness :
  fst (fst (startup_cached Demo.cloud no_cache)) = [].
Proof.
  apply (proj2 (startup_ready_iff_configured Demo.cloud no_cache)).
  reflexivity.
Defined.

(** X15. A value in the secret store wins over the environment even when it
    is empty: in a run with no stored call of [get_openai_client] and a
    falsy [OPENAI_API_KEY] in the store, the page shows the missing-key
    error and start-up does not get through, whatever the environment
    holds. *)
Theorem falsy_secret_shadows_environment (p : Platform) (c : Cache)
    (secrets : gmap string pyval) (v : pyval) :
  openai_entry c = None ->
  st_secrets p = Some (inr secrets) ->
  secrets !! "OPENAI_API_KEY" = Some v -> truthy v = false ->
  snd (fst (startup_cached p c)) <> Ready
  /\ StErrorText "OPENAI_API_KEY nicht gefunden! Bitte in den Streamlit Secrets eintragen."
       ∈ fst (fst (startup_cached p c)).
Proof.
  intros Hc Hs Hv Hf. split.
  - intros Hr. apply startup_cached_ready in Hr
      as (key & _ & _ & Hg & _ & _ & Ho & _).
    rewrite Hc in Ho. cbn in Ho. destruct Ho as [Hk _].
    unfold get_secret in Hg. rewrite Hs, Hv in Hg. congruence.
  - unfold startup_cached, get_secret. rewrite Hs, Hv, Hc.
    destruct (secrets !! "SUPABASE_URL"), (secrets !! "SUPABASE_KEY");
      cbn zeta; unfold get_openai_client; rewrite Hf;
      cbn [negb cache_resource fst snd];
      match goal with
      | |- context [cache_resource ?en ?b] =>
          destruct (fst (cache_resource en b)) as [t2 [e2|[[]|]]]
      end; cbn; apply list_elem_of_here.
Qed.

Lemma falsy_secret_shadows_environment_witness :
  snd (fst (startup_cached Demo.shadowed no_cache)) <> Ready
  /\ StErrorText "OPENAI_API_KEY nicht gefunden! Bitte in den Streamlit Secrets eintragen."
       ∈ fst (fst (startup_cached Demo.shadowed no_cache)).
Proof.
  apply (falsy_secret_shadows_environment Demo.shadowed no_cache
           {[ "OPENAI_API_KEY" := PStr EmptyString ]} (PStr EmptyString));
    reflexivity.
Defined.

(** X16. Both clients are tried before the check: in a run with no stored
    call, when the API key is missing and a Supabase secret is missing too,
    both error texts are shown, in that order, before the script stops. *)
Theorem both_missing_clients_are_reported (p : Platform) (c : Cache)
    (key url skey : pyval) :
  openai_entry c = None -> supabase_entry c = None ->
  get_secret p "OPENAI_API_KEY" = inr key ->
  get_secret p "SUPABASE_URL" = inr url ->
  get_secret p "SUPABASE_KEY" = inr skey ->
  truthy key = false -> truthy url && truthy skey = false ->
  fst (startup_cached p c)
    = ([StErrorText "OPENAI_API_KEY nicht gefunden! Bitte in den Streamlit Secrets eintragen.";
        StErrorText "SUPABASE_URL oder SUPABASE_KEY nicht gefunden! Bitte in den Streamlit Secrets eintragen.";
        StStop],
       Halted).
Proof.
  intros Hc1 Hc2 Hg1 Hg2 Hg3 Hk Hs.
  unfold startup_cached. rewrite Hg1, Hg2, Hg3, Hc1, Hc2. cbn zeta.
  cbn [cache_resource fst snd].
  destruct (get_openai_client_cases p key) as [[_ ->]|[Hk' _]]; [|congruence].
  destruct (get_supabase_client_cases p url skey) as [[_ ->]|[Hs' _]];
    [done|congruence].
Qed.

Lemma both_missing_clients_are_reported_witness :
  fst (startup_cached Demo.bare no_cache)
    = ([StErrorText "OPENAI_API_KEY nicht gefunden! Bitte in den Streamlit Secrets eintragen.";
        StErrorText "SUPABASE_URL oder SUPABASE_KEY nicht gefunden! Bitte in den Streamlit Secrets eintragen.";
        StStop],
       Halted).
Proof.
  apply (both_missing_clients_are_reported Demo.bare no_cache PNone PNone PNone);
    reflexivity.
Defined.

(** ** The chat page *)

Section PageLemmas.
Variable py_repr : pyval -> string.
Variable svc : Services.

(** The three ways section 5 of the script ends. *)
Lemma chat_logic_cases (messages : list message) (chat_input : option string) :
  (chat_logic py_repr svc messages chat_input
     = {| shown := []; messages_after := messages; raised := None |}
   /\ (chat_input = None \/ chat_input = Some EmptyString))
  \/ (exists query answer,
        chat_input = Some query /\ query <> EmptyString
        /\ outcome (rag_process py_repr svc query) = inr answer
        /\ chat_logic py_repr svc messages chat_input
             = {| shown :=
                    [StChatMarkdown "user" query;
                     StSpinner "Analysiere Daten... (Embedding -> Vektorsuche -> LLM)"]
                    ++ map Pipeline (trace (rag_process py_repr svc query))
                    ++ [StChatMarkdown "assistant" answer];
                  messages_after :=
                    messages ++ [ {| role := "user"; content := query |};
                                  {| role := "assistant"; content := answer |} ];
                  raised := None |})
  \/ (exists query e,
        chat_input = Some query /\ query <> EmptyString
        /\ outcome (rag_process py_repr svc query) = inl e
        /\ chat_logic py_repr svc messages chat_input
             = {| shown :=
                    [StChatMarkdown "user" query;
                     StSpinner "Analysiere Daten... (Embedding -> Vektorsuche -> LLM)"]
                    ++ map Pipeline (trace (rag_process py_repr svc query));
                  messages_after :=
                    messages ++ [ {| role := "user"; content := query |} ];
                  raised := Some e |}).
Proof.
  unfold chat_logic. destruct chat_input as [query|]; [|left; by split; [|left]].
  cbn [truthy]. destruct (String.eqb_spec query EmptyString) as [->|Hne].
  { left. split; [done|by right]. }
  cbn [negb].
  destruct (outcome (rag_process py_repr svc query)) as [e|answer] eqn:Ho.
  - right. right. by exists query, e.
  - right. left. exists query, answer. rewrite <- (assoc_L (++)). by cbn.
Qed.

Lemma dialogue_app (messages tail : list message) :
  dialogue messages -> dialogue tail -> dialogue (messages ++ tail).
Proof.
  revert messages. fix IH 1.
  intros [|question [|answer rest]]; cbn; [done|done|].
  intros (Hq & Ha & Hrest) Htail. split; [done|]. split; [done|].
  by apply (IH rest).
Qed.

End PageLemmas.

(** X17. What a turn shows and whether it raises do not depend on the
    conversation stored so far, and the turn only appends to it. *)
Theorem turn_independent_of_history (py_repr : pyval -> string)
    (svc : Services) (messages : list message) (chat_input : option string) :
  shown (chat_logic py_repr svc messages chat_input)
    = shown (chat_logic py_repr svc [] chat_input)
  /\ raised (chat_logic py_repr svc messages chat_input)
       = raised (chat_logic py_repr svc [] chat_input)
  /\ messages_after (chat_logic py_repr svc messages chat_input)
       = messages ++ messages_after (chat_logic py_repr svc [] chat_input)
  /\ length (messages_after (chat_logic py_repr svc [] chat_input)) <= 2.
Proof.
  destruct (chat_logic_cases py_repr svc messages chat_input)
    as [[-> Hi]|[(q & a & Hi & Hne & Ho & ->)|(q & e & Hi & Hne & Ho & ->)]];
    destruct (chat_logic_cases py_repr svc [] chat_input)
      as [[-> Hi']|[(q' & a' & Hi' & Hne' & Ho' & ->)
                   |(q' & e' & Hi' & Hne' & Ho' & ->)]];
    cbn [shown raised messages_after length app];
    try (destruct Hi as [Hi|Hi]; congruence);
    try (destruct Hi' as [Hi'|Hi']; congruence);
    try (assert (q' = q) as -> by congruence).
  - rewrite app_nil_r. repeat split; lia.
  - assert (a' = a) as -> by congruence. repeat split; lia.
  - congruence.
  - congruence.
  - assert (e' = e) as -> by congruence. repeat split; lia.
Qed.

(** X18. A turn that ends well stores the question and then the answer of
    the pipeline, and the answer stored is the text shown last. *)
Theorem finished_turn_stores_question_and_answer (py_repr : pyval -> string)
    (svc : Services) (messages : list message) (query : string) :
  query <> EmptyString ->
  raised (chat_logic py_repr svc messages (Some query)) = None ->
  exists answer,
    outcome (rag_process py_repr svc query) = inr answer
    /\ messages_after (chat_logic py_repr svc messages (Some query))
         = messages ++ [ {| role := "user"; content := query |};
                         {| role := "assistant"; content := answer |} ]
    /\ last (shown (chat_logic py_repr svc messages (Some query)))
         = Some (StChatMarkdown "assistant" answer).
Proof.
  intros Hne Hr.
  destruct (chat_logic_cases py_repr svc messages (Some query))
    as [[_ [Hi|Hi]]|[(q & a & Hi & _ & Ho & Heq)|(q & e & Hi & _ & Ho & Heq)]];
    try congruence.
  - injection Hi as <-. exists a. rewrite Heq. cbn [messages_after shown].
    split; [done|]. split; [done|].
    by rewrite (assoc_L (++)), last_snoc.
  - rewrite Heq in Hr. by cbn in Hr.
Qed.

Lemma finished_turn_stores_question_and_answer_witness :
  exists answer,
    outcome (rag_process Sample.repr Sample.up "Apple?") = inr answer
    /\ messages_after (chat_logic Sample.repr Sample.up [] (Some "Apple?"))
         = [] ++ [ {| role := "user"; content := "Apple?" |};
                   {| role := "assistant"; content := answer |} ]
    /\ last (shown (chat_logic Sample.repr Sample.up [] (Some "Apple?")))
         = Some (StChatMarkdown "assistant" answer).
Proof.
  apply finished_turn_stores_question_and_answer; [discriminate | reflexivity].
Defined.

(** X19. A turn that raises has stored the question and nothing else: the
    question stays in the conversation without an answer, no assistant
    message is shown, and the exception is that of an unreadable row. *)
Theorem raising_turn_keeps_question (py_repr : pyval -> string)
    (svc : Services) (messages : list message) (chat_input : option string)
    (e : exn) :
  raised (chat_logic py_repr svc messages chat_input) = Some e ->
  exists query,
    chat_input = Some query
    /\ messages_after (chat_logic py_repr svc messages chat_input)
         = messages ++ [ {| role := "user"; content := query |} ]
    /\ (e = KeyError "content" \/ e = TypeError)
    /\ Forall (fun ev => forall text, ev <> StChatMarkdown "assistant" text)
         (shown (chat_logic py_repr svc messages chat_input)).
Proof.
  intros Hr.
  destruct (chat_logic_cases py_repr svc messages chat_input)
    as [[Heq _]|[(q & a & _ & _ & _ & Heq)|(q & e' & Hi & _ & Ho & Heq)]];
    rewrite Heq in Hr |- *; cbn [raised messages_after shown] in *;
    try done.
  injection Hr as ->. exists q. split; [done|]. split; [done|].
  split; [by destruct (rag_process_raises_inv py_repr svc q e Ho)|].
  repeat (constructor; [done|]). apply Forall_fmap, Forall_forall.
  by intros ev _ text.
Qed.

Lemma raising_turn_keeps_question_witness :
  exists query,
    Some "Tesla?" = Some query
    /\ messages_after (chat_logic Sample.repr Demo.store_broken [] (Some "Tesla?"))
         = [] ++ [ {| role := "user"; content := query |} ]
    /\ (KeyError "content" = KeyError "content" \/ KeyError "content" = TypeError)
    /\ Forall (fun ev => forall text, ev <> StChatMarkdown "assistant" text)
         (shown (chat_logic Sample.repr Demo.store_broken [] (Some "Tesla?"))).
Proof.
  apply (raising_turn_keeps_question Sample.repr Demo.store_broken []
           (Some "Tesla?") (KeyError "content")).
  reflexivity.
Defined.

(** X20. As long as every row the store can return is a mapping with a
    content, the stored conversation stays a sequence of question and
    answer pairs, over any series of inputs. *)
Theorem conversation_stays_a_dialogue (py_repr : pyval -> string)
    (svc : Services) (messages : list message)
    (inputs : list (option string)) :
  (forall emb rows,
     rpc_execute svc "match_nasdaq_chunks"
       {| query_embedding := emb; match_threshold := 0.4%float;
          match_count := 5 |} = inr rows ->
     Forall (fun row => ~ lacks_content row) rows) ->
  dialogue messages ->
  dialogue (after_inputs py_repr svc messages inputs).
Proof.
  intros Hrows. revert messages.
  induction inputs as [|input inputs IH]; intros messages Hd; [done|].
  unfold after_inputs in *. cbn [fold_left]. apply IH.
  destruct (chat_logic_cases py_repr svc messages input)
    as [[-> _]|[(q & a & _ & _ & _ & ->)|(q & e & _ & _ & Ho & _)]];
    cbn [messages_after]; [done| |].
  - by apply dialogue_app.
  - destruct (rag_process_raises_inv py_repr svc q e Ho)
      as (_ & emb & rows & _ & Hrpc & Hex & _).
    apply Exists_exists in Hex as (row & Hin & Hl).
    specialize (Hrows emb rows Hrpc). rewrite Forall_forall in Hrows.
    by destruct (Hrows row Hin).
Qed.

Lemma conversation_stays_a_dialogue_witness :
  dialogue (after_inputs Sample.repr Sample.up []
              [Some "Apple?"; None; Some "Und Microsoft?"]).
Proof.
  apply conversation_stays_a_dialogue.
  - intros emb rows Hrows. injection Hrows as <-.
    repeat constructor. vm_compute. discriminate.
  - exact I.
Defined.






